(** * Alaska fast-track promo finder: a shallow embedding of
      [alaska_promo_finder.py] and the properties of its scanner.

    The development follows the Python module top to bottom.  Python values
    are modelled where the code observes them:

    - [str] is [string]; case mapping, whitespace and the regular-expression
      character classes are those of the ASCII range (characters above 127 are
      carried through unchanged as uncased, non-word symbols);
    - the objects produced by [json.loads] are the inductive [pyval], with
      [dict] as an association list in insertion order;
    - exceptions travel in the error monad [result];
    - the libraries the module calls but does not define ([requests],
      [BeautifulSoup], [json.loads] on page scripts, [datetime.fromisoformat],
      the clock) are the fields of an environment record [Env], over which
      every general statement is quantified. *)

From Stdlib Require Import String Ascii List ZArith Lia Bool Arith DecimalString.
From Stdlib Require Import Permutation Sorted.
From Stdlib Require OrderedTypeEx.
Import ListNotations.
Open Scope string_scope.

(** ** Python strings *)

Module PyStr.

Definition code (c : ascii) : nat := nat_of_ascii c.

Definition between (lo hi : nat) (c : ascii) : bool :=
  (lo <=? code c)%nat && (code c <=? hi)%nat.

Definition is_upper (c : ascii) : bool := between 65 90 c.
Definition is_lower (c : ascii) : bool := between 97 122 c.
Definition is_alpha (c : ascii) : bool := is_upper c || is_lower c.
Definition is_digit (c : ascii) : bool := between 48 57 c.

(** [str.isspace] on one character: TAB, LF, VT, FF, CR, the four
    separators FS, GS, RS, US and the space. *)
Definition is_space (c : ascii) : bool :=
  between 9 13 c || between 28 32 c.

Definition lower_char (c : ascii) : ascii :=
  if is_upper c then ascii_of_nat (code c + 32) else c.

Definition upper_char (c : ascii) : ascii :=
  if is_lower c then ascii_of_nat (code c - 32) else c.

(** [s.lower()] *)
Fixpoint lower (s : string) : string :=
  match s with
  | EmptyString => EmptyString
  | String c t => String (lower_char c) (lower t)
  end.

(** [needle in hay] for two strings. *)
Fixpoint contains (needle hay : string) : bool :=
  prefix needle hay ||
  match hay with
  | EmptyString => false
  | String _ t => contains needle t
  end.

(** Drop the first [n] characters. *)
Fixpoint drop (n : nat) (s : string) : string :=
  match n, s with
  | O, _ => s
  | S n', String _ t => drop n' t
  | S _, EmptyString => EmptyString
  end.

(** Keep the first [n] characters. *)
Fixpoint take (n : nat) (s : string) : string :=
  match n, s with
  | S n', String c t => String c (take n' t)
  | _, _ => EmptyString
  end.

(** [s.replace(old, new)] for a one-character [old]: the only use in the
    module is [end_date.replace('Z', '+00:00')]. *)
Fixpoint replace_char (old : ascii) (new : string) (s : string) : string :=
  match s with
  | EmptyString => EmptyString
  | String c t =>
      if Ascii.eqb c old then new ++ replace_char old new t
      else String c (replace_char old new t)
  end.

(** [s.title()]: a cased character is upper-cased when the character before
    it is not cased, and lower-cased otherwise. *)
Fixpoint title_from (prev_cased : bool) (s : string) : string :=
  match s with
  | EmptyString => EmptyString
  | String c t =>
      String (if prev_cased then lower_char c else upper_char c)
             (title_from (is_alpha c) t)
  end.

Definition title (s : string) : string := title_from false s.

Fixpoint lstrip (s : string) : string :=
  match s with
  | String c t => if is_space c then lstrip t else s
  | EmptyString => EmptyString
  end.

Fixpoint rstrip (s : string) : string :=
  match s with
  | EmptyString => EmptyString
  | String c t =>
      match rstrip t with
      | EmptyString => if is_space c then EmptyString else String c EmptyString
      | t' => String c t'
      end
  end.

(** [s.strip()] *)
Definition strip (s : string) : string := rstrip (lstrip s).

(** [str(n)] for a natural number. *)
Definition of_nat (n : nat) : string :=
  NilEmpty.string_of_uint (Nat.to_uint n).

Fixpoint repeat_char (c : ascii) (n : nat) : string :=
  match n with
  | O => EmptyString
  | S n' => String c (repeat_char c n')
  end.

(** The format specification [0w] of an f-string on a natural number:
    decimal digits, padded on the left with zeros up to width [w]. *)
Definition zero_pad (w : nat) (n : nat) : string :=
  let s := of_nat n in
  repeat_char "0"%char (w - String.length s) ++ s.

End PyStr.

(** ** Code generation *)

Definition prefixes : list string :=
  ["AS23"; "CS23"; "AS24"; "CS24"; "AS25"; "CS25"].

(** [[f"{i:02}" for i in range(100)]] *)
Definition codes : list string := map (PyStr.zero_pad 2) (seq 0 100).

(** The inner loop of [generate_promo_codes]: one [append] per suffix. *)
Definition append_prefix (all_codes : list string) (prefix : string)
  : list string :=
  fold_left (fun acc code => (acc ++ [(prefix ++ code)%string])%list)
            codes all_codes.

(** [generate_promo_codes]: the outer loop over the prefixes, starting from
    the empty list. *)
Definition generate_promo_codes : list string :=
  fold_left append_prefix prefixes [].

(** A boolean duplicate check, used to decide [NoDup] on concrete lists. *)
Fixpoint nodupb (l : list string) : bool :=
  match l with
  | [] => true
  | x :: t => negb (existsb (String.eqb x) t) && nodupb t
  end.

(** ** Regular expressions

    The fragment of Python's [re] that the module's patterns are written in:
    literal characters, [.], the classes [\d], [\w], [\s], a negated
    one-character set, greedy and lazy repetition of a single-character
    atom, concatenation and one capture group.  Matching is by backtracking,
    in the priority order of [re]. *)

Module Re.

Inductive atom : Type :=
| Lit (c : ascii)          (* a literal character *)
| Dot                      (* [.]: anything but a newline *)
| Digit                    (* [\d] *)
| Word                     (* [\w] *)
| Space                    (* [\s] *)
| NotChar (c : ascii).     (* [[^c]] *)

Inductive regex : Type :=
| Empty
| Atom (a : atom)
| Rep (greedy : bool) (min : nat) (max : option nat) (a : atom)
| Group (r : regex)
| Seq (r1 r2 : regex).

(** One character against one atom; [ic] is the [re.IGNORECASE] flag. *)
Definition atom_matches (ic : bool) (a : atom) (c : ascii) : bool :=
  match a with
  | Lit l =>
      if ic then Ascii.eqb (PyStr.lower_char c) (PyStr.lower_char l)
      else Ascii.eqb c l
  | Dot => negb (Ascii.eqb c "010"%char)
  | Digit => PyStr.is_digit c
  | Word => PyStr.is_alpha c || PyStr.is_digit c || Ascii.eqb c "_"%char
  | Space => PyStr.is_space c
  | NotChar l =>
      negb (if ic then Ascii.eqb (PyStr.lower_char c) (PyStr.lower_char l)
            else Ascii.eqb c l)
  end.

(** The literal text [s] as a pattern. *)
Fixpoint text (s : string) : regex :=
  match s with
  | EmptyString => Empty
  | String c t => Seq (Atom (Lit c)) (text t)
  end.

Definition max_allows (max : option nat) : bool :=
  match max with
  | Some O => false
  | _ => true
  end.

Definition max_pred (max : option nat) : option nat :=
  match max with
  | Some n => Some (pred n)
  | None => None
  end.

Section Matcher.
Context {R : Type}.
Variable ic : bool.

(** Repetition of an atom, then the continuation [k] on what is left.
    A greedy repetition tries one more character before trying [k]; a
    lazy one tries [k] first. *)
Fixpoint rep (greedy : bool) (a : atom) (s : string)
         (min : nat) (max : option nat) (k : string -> option R)
  : option R :=
  match min with
  | S min' =>
      match s with
      | String c t =>
          if max_allows max && atom_matches ic a c
          then rep greedy a t min' (max_pred max) k
          else None
      | EmptyString => None
      end
  | O =>
      match s with
      | String c t =>
          if max_allows max && atom_matches ic a c then
            if greedy then
              match rep greedy a t O (max_pred max) k with
              | Some r => Some r
              | None => k s
              end
            else
              match k s with
              | Some r => Some r
              | None => rep greedy a t O (max_pred max) k
              end
          else k s
      | EmptyString => k s
      end
  end.

(** [run r s cap k]: match [r] at the start of [s]; [cap] is the text
    captured by the group so far; [k] receives the rest of the subject
    and the capture. *)
Fixpoint run (r : regex) (s : string) (cap : option string)
         (k : string -> option string -> option R) : option R :=
  match r with
  | Empty => k s cap
  | Atom a =>
      match s with
      | String c t => if atom_matches ic a c then k t cap else None
      | EmptyString => None
      end
  | Rep greedy min max a => rep greedy a s min max (fun s' => k s' cap)
  | Group r' =>
      run r' s cap
          (fun s' _ =>
             k s' (Some (PyStr.take (String.length s - String.length s') s)))
  | Seq r1 r2 => run r1 s cap (fun s' cap' => run r2 s' cap' k)
  end.
End Matcher.

(** A successful match: where it starts, what the group captured, and the
    subject after the match. *)
Record found : Type := Found {
  at_suffix : string;      (* the subject from the start of the match *)
  group1 : option string;  (* [m.group(1)] *)
  rest : string            (* the subject after the end of the match *)
}.

Definition match_here (ic : bool) (r : regex) (s : string) : option found :=
  run ic r s None (fun s' cap => Some (Found s cap s')).

(** [re.search]: the first position, from the left, at which the pattern
    matches. *)
Fixpoint search (ic : bool) (r : regex) (s : string) : option found :=
  match match_here ic r s with
  | Some m => Some m
  | None =>
      match s with
      | String _ t => search ic r t
      | EmptyString => None
      end
  end.

Definition group_text (m : found) : string :=
  match group1 m with
  | Some g => g
  | None => EmptyString
  end.

(** [re.findall] for a pattern with one group: the group's text for every
    match, scanning left to right without overlap.  After an empty match
    the scan moves one character on. *)
Fixpoint findall_fuel (fuel : nat) (ic : bool) (r : regex) (s : string)
  : list string :=
  match fuel with
  | O => []
  | S fuel' =>
      match search ic r s with
      | None => []
      | Some m =>
          group_text m ::
          (if (String.length (rest m) <? String.length (at_suffix m))%nat
           then findall_fuel fuel' ic r (rest m)
           else match rest m with
                | String _ t => findall_fuel fuel' ic r t
                | EmptyString => []
                end)
      end
  end.

Definition findall (ic : bool) (r : regex) (s : string) : list string :=
  findall_fuel (S (String.length s)) ic r s.

(** Pattern combinators. *)
Definition lazy_star (a : atom) : regex := Rep false 0 None a.
Definition plus (a : atom) : regex := Rep true 1 None a.
Definition times (lo hi : nat) (a : atom) : regex := Rep true lo (Some hi) a.

Fixpoint seq (rs : list regex) : regex :=
  match rs with
  | [] => Empty
  | r :: rs' => Seq r (seq rs')
  end.

End Re.

(** The patterns of the module. *)

(** [r'promotion ended.*?on\s+(\d{1,2}/\d{1,2}/\d{4})'] *)
Definition expiration_pattern : Re.regex :=
  Re.seq [ Re.text "promotion ended"; Re.lazy_star Re.Dot; Re.text "on";
           Re.plus Re.Space;
           Re.Group (Re.seq [ Re.times 1 2 Re.Digit; Re.text "/";
                              Re.times 1 2 Re.Digit; Re.text "/";
                              Re.times 4 4 Re.Digit ]) ].

(** [email_patterns] *)
Definition email_patterns : list Re.regex :=
  [ Re.seq [Re.text "@"; Re.Group (Re.plus Re.Word); Re.text ".edu"];
    Re.seq [Re.text "@"; Re.Group (Re.plus Re.Word); Re.text ".com"];
    Re.seq [Re.text "@"; Re.Group (Re.plus Re.Word); Re.text ".org"];
    Re.seq [Re.text "university"; Re.plus Re.Space; Re.text "of";
            Re.plus Re.Space; Re.Group (Re.plus Re.Word)];
    Re.seq [Re.Group (Re.plus Re.Word); Re.plus Re.Space;
            Re.text "university"] ].

(** [company_indicators] *)
Definition company_indicators : list Re.regex :=
  [ Re.seq [Re.text "Only"; Re.lazy_star Re.Dot;
            Re.text "members who work at ";
            Re.Group (Re.plus (Re.NotChar ","))];
    Re.seq [Re.Group (Re.plus (Re.NotChar ","));
            Re.text " discover a quicker way"];
    Re.seq [Re.Group (Re.plus (Re.NotChar ",")); Re.text " employees"];
    Re.seq [Re.Group (Re.plus (Re.NotChar ",")); Re.text " staff"] ].

(** ** Python values, exceptions and dictionaries *)

Module Py.

Inductive exn : Type :=
| JSONDecodeError
| KeyError
| TypeError
| AttributeError
| ValueError
| RequestException     (* [requests.exceptions.RequestException] *)
| OtherError.          (* any exception outside the classes above *)

Inductive result (A : Type) : Type :=
| Ok (a : A)
| Raise (e : exn).
Arguments Ok {A} a.
Arguments Raise {A} e.

Definition bind {A B : Type} (m : result A) (f : A -> result B) : result B :=
  match m with
  | Ok a => f a
  | Raise e => Raise e
  end.

(** A Python [dict] with string keys: keys in insertion order, no key
    twice. *)
Definition dict (V : Type) : Type := list (string * V).

Fixpoint dict_get {V : Type} (k : string) (d : dict V) : option V :=
  match d with
  | [] => None
  | (k', v) :: d' => if String.eqb k k' then Some v else dict_get k d'
  end.

Definition dict_mem {V : Type} (k : string) (d : dict V) : bool :=
  match dict_get k d with
  | Some _ => true
  | None => false
  end.

(** [d[k] = v]: an existing key keeps its place, a new key goes last. *)
Fixpoint dict_set {V : Type} (k : string) (v : V) (d : dict V) : dict V :=
  match d with
  | [] => [(k, v)]
  | (k', v') :: d' =>
      if String.eqb k k' then (k', v) :: d' else (k', v') :: dict_set k v d'
  end.

Definition keys {V : Type} (d : dict V) : list string := map fst d.

(** The values [json.loads] produces.  A [float] is identified by its
    [repr]. *)
#[warnings="-register-all"] Inductive pyval : Type :=
| PNone
| PBool (b : bool)
| PInt (z : Z)
| PFloat (repr : string)
| PStr (s : string)
| PList (l : list pyval)
| PDict (d : list (string * pyval)).

Definition float_is_zero (repr : string) : bool :=
  String.eqb repr "0.0" || String.eqb repr "-0.0".

(** Truth value of an object, as tested by [if x:]. *)
Definition truthy (v : pyval) : bool :=
  match v with
  | PNone => false
  | PBool b => b
  | PInt z => negb (Z.eqb z 0)
  | PFloat r => negb (float_is_zero r)
  | PStr s => negb (String.eqb s EmptyString)
  | PList l => match l with [] => false | _ => true end
  | PDict d => match d with [] => false | _ => true end
  end.

Definition is_str (k : string) (v : pyval) : bool :=
  match v with
  | PStr s => String.eqb s k
  | _ => false
  end.

(** [k in v] for a string [k]: key membership in a dict, element
    membership in a list, substring test in a string; other objects are
    not containers. *)
Definition py_in (k : string) (v : pyval) : result bool :=
  match v with
  | PDict d => Ok (dict_mem k d)
  | PList l => Ok (existsb (is_str k) l)
  | PStr s => Ok (PyStr.contains k s)
  | _ => Raise TypeError
  end.

(** [v[k]] for a string [k]. *)
Definition py_getitem (v : pyval) (k : string) : result pyval :=
  match v with
  | PDict d =>
      match dict_get k d with
      | Some x => Ok x
      | None => Raise KeyError
      end
  | _ => Raise TypeError
  end.

(** [v.get(k, default)]: only a dict has the method. *)
Definition py_get (v : pyval) (k : string) (default : pyval)
  : result pyval :=
  match v with
  | PDict d =>
      match dict_get k d with
      | Some x => Ok x
      | None => Ok default
      end
  | _ => Raise AttributeError
  end.

(** [v[k] = x] for a string [k]. *)
Definition py_setitem (v : pyval) (k : string) (x : pyval) : result pyval :=
  match v with
  | PDict d => Ok (PDict (dict_set k x d))
  | _ => Raise TypeError
  end.

(** [len(v)] *)
Definition py_len (v : pyval) : result nat :=
  match v with
  | PDict d => Ok (List.length d)
  | PList l => Ok (List.length l)
  | PStr s => Ok (String.length s)
  | _ => Raise TypeError
  end.

End Py.

Import Py.

Notation "x <- m ;; f" := (Py.bind m (fun x => f))
  (at level 61, m at next level, right associativity).

(** ** Dates *)

Module DateTime.

(** A [datetime]: calendar fields, and the offset from UTC in microseconds
    when the object is timezone-aware. *)
Record datetime : Type := {
  year : nat;
  month : nat;
  day : nat;
  hour : nat;
  minute : nat;
  second : nat;
  microsecond : nat;
  utcoffset : option Z
}.

Definition is_leap (y : Z) : bool :=
  (Z.eqb (y mod 4) 0 && (negb (Z.eqb (y mod 100) 0) || Z.eqb (y mod 400) 0))%Z.

Definition days_before_year (y : Z) : Z :=
  let y1 := (y - 1)%Z in
  (y1 * 365 + y1 / 4 - y1 / 100 + y1 / 400)%Z.

Definition days_before_month (y : Z) (m : nat) : Z :=
  (nth m [0; 0; 31; 59; 90; 120; 151; 181; 212; 243; 273; 304; 334] 0
   + (if (2 <? m)%nat && is_leap y then 1 else 0))%Z.

(** [toordinal]: day 1 is 0001-01-01. *)
Definition ymd2ord (d : datetime) : Z :=
  (days_before_year (Z.of_nat (year d))
   + days_before_month (Z.of_nat (year d)) (month d)
   + Z.of_nat (day d))%Z.

(** Microseconds of the calendar fields since the start of day 0. *)
Definition wall_clock (d : datetime) : Z :=
  ((((ymd2ord d * 24 + Z.of_nat (hour d)) * 60 + Z.of_nat (minute d)) * 60
    + Z.of_nat (second d)) * 1000000 + Z.of_nat (microsecond d))%Z.

(** [a < b]: two naive values compare by their fields, two aware values by
    the instants they denote; a naive and an aware value do not compare. *)
Definition lt (a b : datetime) : result bool :=
  match utcoffset a, utcoffset b with
  | None, None => Ok (wall_clock a <? wall_clock b)%Z
  | Some oa, Some ob => Ok (wall_clock a - oa <? wall_clock b - ob)%Z
  | _, _ => Raise TypeError
  end.

(** [d.strftime('%m/%d/%Y')] *)
Definition strftime_mdY (d : datetime) : string :=
  PyStr.zero_pad 2 (month d) ++ "/" ++ PyStr.zero_pad 2 (day d) ++ "/"
    ++ PyStr.of_nat (year d).

End DateTime.

Import DateTime.

(** ** JSON text

    [json.dump(obj, f, indent=2, ensure_ascii=False)] and [json.load(f)], on
    the values of [pyval].  The reader accepts objects, arrays, strings,
    integers, [true], [false] and [null]; a fraction, an exponent, the
    constants [NaN] and [Infinity], and a [\u] escape above [\u00ff] are
    outside the fragment and make it fail. *)

Module Json.

Definition dq : ascii := "034"%char.
Definition backslash : ascii := "092"%char.
Definition newline : ascii := "010"%char.

Definition hex_digit (n : nat) : ascii :=
  if (n <? 10)%nat then ascii_of_nat (48 + n) else ascii_of_nat (87 + n).

(** The replacement [py_encode_basestring] makes for one character. *)
Definition escape_char (c : ascii) : string :=
  let n := PyStr.code c in
  if Ascii.eqb c dq then String backslash (String dq EmptyString)
  else if Ascii.eqb c backslash then String backslash (String backslash EmptyString)
  else if (n =? 10)%nat then String backslash "n"
  else if (n =? 13)%nat then String backslash "r"
  else if (n =? 9)%nat then String backslash "t"
  else if (n =? 8)%nat then String backslash "b"
  else if (n =? 12)%nat then String backslash "f"
  else if (n <? 32)%nat then
    String backslash
      (String "u" (String "0" (String "0"
        (String (hex_digit (n / 16)) (String (hex_digit (n mod 16)) EmptyString)))))
  else String c EmptyString.

Fixpoint escape (s : string) : string :=
  match s with
  | EmptyString => EmptyString
  | String c t => escape_char c ++ escape t
  end.

Definition encode_string (s : string) : string :=
  String dq (escape s ++ String dq EmptyString).

(** A line break followed by the indentation of nesting depth [level]. *)
Definition newline_indent (level : nat) : string :=
  String newline (PyStr.repeat_char " "%char (2 * level)).

Definition encode_int (z : Z) : string :=
  NilEmpty.string_of_int (Z.to_int z).

Definition encode_float (repr : string) : string :=
  if String.eqb repr "nan" then "NaN"
  else if String.eqb repr "inf" then "Infinity"
  else if String.eqb repr "-inf" then "-Infinity"
  else repr.

(** The text of one value at nesting depth [level]. *)
Fixpoint encode (level : nat) (v : pyval) : string :=
  match v with
  | PNone => "null"
  | PBool true => "true"
  | PBool false => "false"
  | PInt z => encode_int z
  | PFloat r => encode_float r
  | PStr s => encode_string s
  | PList [] => "[]"
  | PList (x :: l) =>
      "[" ++ newline_indent (S level) ++ encode (S level) x
        ++ (fix items (l : list pyval) : string :=
              match l with
              | [] => newline_indent level ++ "]"
              | y :: l' =>
                  "," ++ newline_indent (S level) ++ encode (S level) y
                    ++ items l'
              end) l
  | PDict [] => "{}"
  | PDict ((k, x) :: d) =>
      "{" ++ newline_indent (S level) ++ encode_string k ++ ": "
        ++ encode (S level) x
        ++ (fix members (d : list (string * pyval)) : string :=
              match d with
              | [] => newline_indent level ++ "}"
              | (k', y) :: d' =>
                  "," ++ newline_indent (S level) ++ encode_string k' ++ ": "
                    ++ encode (S level) y ++ members d'
              end) d
  end.

(** [json.dumps(v, indent=2, ensure_ascii=False)] *)
Definition dumps (v : pyval) : string := encode 0 v.

(** *** Reading *)

Definition is_ws (c : ascii) : bool :=
  let n := PyStr.code c in
  (n =? 32)%nat || (n =? 9)%nat || (n =? 10)%nat || (n =? 13)%nat.

Fixpoint skip_ws (s : string) : string :=
  match s with
  | String c t => if is_ws c then skip_ws t else s
  | EmptyString => EmptyString
  end.

Definition hex_value (c : ascii) : option nat :=
  let n := PyStr.code c in
  if PyStr.between 48 57 c then Some (n - 48)
  else if PyStr.between 97 102 c then Some (n - 87)
  else if PyStr.between 65 70 c then Some (n - 55)
  else None.

Definition hex4 (a b c d : ascii) : option nat :=
  match hex_value a, hex_value b, hex_value c, hex_value d with
  | Some x, Some y, Some z, Some w => Some (((x * 16 + y) * 16 + z) * 16 + w)
  | _, _, _, _ => None
  end.

(** The character a one-letter escape stands for. *)
Definition unescape (e : ascii) : option ascii :=
  if Ascii.eqb e dq then Some dq
  else if Ascii.eqb e backslash then Some backslash
  else if Ascii.eqb e "/" then Some "/"%char
  else if Ascii.eqb e "b" then Some "008"%char
  else if Ascii.eqb e "f" then Some "012"%char
  else if Ascii.eqb e "n" then Some "010"%char
  else if Ascii.eqb e "r" then Some "013"%char
  else if Ascii.eqb e "t" then Some "009"%char
  else None.

Definition cons_char (c : ascii) (r : option (string * string))
  : option (string * string) :=
  match r with
  | Some (s, rest) => Some (String c s, rest)
  | None => None
  end.

(** The body of a string literal, after its opening quote: the decoded
    text and what follows the closing quote. *)
Fixpoint scanstring (s : string) : option (string * string) :=
  match s with
  | EmptyString => None
  | String c t =>
      if Ascii.eqb c dq then Some (EmptyString, t)
      else if Ascii.eqb c backslash then
        match t with
        | String e t' =>
            if Ascii.eqb e "u" then
              match t' with
              | String h1 (String h2 (String h3 (String h4 t''))) =>
                  match hex4 h1 h2 h3 h4 with
                  | Some n =>
                      if (n <? 256)%nat
                      then cons_char (ascii_of_nat n) (scanstring t'')
                      else None
                  | None => None
                  end
              | _ => None
              end
            else
              match unescape e with
              | Some c' => cons_char c' (scanstring t')
              | None => None
              end
        | EmptyString => None
        end
      else if (PyStr.code c <? 32)%nat then None
      else cons_char c (scanstring t)
  end.

Fixpoint span_digits (s : string) : string * string :=
  match s with
  | String c t =>
      if PyStr.is_digit c
      then let (ds, r) := span_digits t in (String c ds, r)
      else (EmptyString, s)
  | EmptyString => (EmptyString, EmptyString)
  end.

Fixpoint digits_value (acc : Z) (ds : string) : Z :=
  match ds with
  | EmptyString => acc
  | String c t => digits_value (acc * 10 + Z.of_nat (PyStr.code c - 48)) t
  end.

(** The integer part of a number: [0], or a non-zero digit and more
    digits. *)
Definition scan_natural (s : string) : option (Z * string) :=
  match s with
  | String c t =>
      if Ascii.eqb c "0" then Some (0%Z, t)
      else if PyStr.is_digit c
           then let (ds, r) := span_digits s in Some (digits_value 0 ds, r)
           else None
  | EmptyString => None
  end.

Definition scan_int (s : string) : option (Z * string) :=
  match s with
  | String c t =>
      if Ascii.eqb c "-" then
        match scan_natural t with
        | Some (z, r) => Some ((- z)%Z, r)
        | None => None
        end
      else scan_natural s
  | EmptyString => None
  end.

Definition expect (word : string) (v : pyval) (s : string)
  : option (pyval * string) :=
  if prefix word s then Some (v, PyStr.drop (String.length word) s) else None.

Section Containers.
(** The reader of one value, for the elements of a container. *)
Variable scan_once : string -> option (pyval * string).

(** The members of an object, from the opening quote of a key on.  A key
    read twice keeps its first place and its last value. *)
Fixpoint members (n : nat) (s : string) (acc : dict pyval)
  : option (pyval * string) :=
  match n with
  | O => None
  | S n' =>
      match s with
      | String c t =>
          if Ascii.eqb c dq then
            match scanstring t with
            | Some (k, s1) =>
                match skip_ws s1 with
                | String c1 s2 =>
                    if Ascii.eqb c1 ":" then
                      match scan_once (skip_ws s2) with
                      | Some (v, s3) =>
                          match skip_ws s3 with
                          | String c3 s4 =>
                              if Ascii.eqb c3 "}"
                              then Some (PDict (dict_set k v acc), s4)
                              else if Ascii.eqb c3 ","
                              then members n' (skip_ws s4) (dict_set k v acc)
                              else None
                          | EmptyString => None
                          end
                      | None => None
                      end
                    else None
                | EmptyString => None
                end
            | None => None
            end
          else None
      | EmptyString => None
      end
  end.

(** The elements of an array, from the first character of one on. *)
Fixpoint elements (n : nat) (s : string) (acc : list pyval)
  : option (pyval * string) :=
  match n with
  | O => None
  | S n' =>
      match scan_once s with
      | Some (v, s1) =>
          match skip_ws s1 with
          | String c s2 =>
              if Ascii.eqb c "]" then Some (PList (acc ++ [v])%list, s2)
              else if Ascii.eqb c ","
              then elements n' (skip_ws s2) (acc ++ [v])%list
              else None
          | EmptyString => None
          end
      | None => None
      end
  end.
End Containers.

(** One value at the start of [s]. *)
Fixpoint scan (fuel : nat) (s : string) : option (pyval * string) :=
  match fuel with
  | O => None
  | S fuel' =>
      match s with
      | String c t =>
          if Ascii.eqb c dq then
            match scanstring t with
            | Some (x, r) => Some (PStr x, r)
            | None => None
            end
          else if Ascii.eqb c "{" then
            match skip_ws t with
            | String c' r =>
                if Ascii.eqb c' "}" then Some (PDict [], r)
                else members (scan fuel') (String.length t) (skip_ws t) []
            | EmptyString => None
            end
          else if Ascii.eqb c "[" then
            match skip_ws t with
            | String c' r =>
                if Ascii.eqb c' "]" then Some (PList [], r)
                else elements (scan fuel') (String.length t) (skip_ws t) []
            | EmptyString => None
            end
          else if Ascii.eqb c "n" then expect "null" PNone s
          else if Ascii.eqb c "t" then expect "true" (PBool true) s
          else if Ascii.eqb c "f" then expect "false" (PBool false) s
          else
            match scan_int s with
            | Some (z, r) => Some (PInt z, r)
            | None => None
            end
      | EmptyString => None
      end
  end.

(** [json.loads(s)]: one value, with nothing but whitespace around it;
    [None] stands for [JSONDecodeError]. *)
Definition loads (s : string) : option pyval :=
  match scan (S (String.length s)) (skip_ws s) with
  | Some (v, r) =>
      match skip_ws r with
      | EmptyString => Some v
      | String _ _ => None
      end
  | None => None
  end.

End Json.

(** ** The environment of the finder

    What the module obtains from its libraries.  [World] is the state of
    everything outside the process (the remote site, the clock); an
    operation that consults it returns the next state. *)

Record Response : Type := {
  status_code : Z;
  text : string
}.

(** A parsed page, as far as the module looks at it. *)
Record Soup : Type := {
  (** [script.string] for every element of
      [soup.find_all('script', {'type': 'application/json'})], in document
      order; [None] when the element has no single string child. *)
  scripts : list (option string);
  (** [soup.get_text()] *)
  get_text : string
}.

Record Env : Type := {
  World : Type;
  (** [urljoin(base, code)] *)
  urljoin : string -> string -> string;
  (** [session.get(url, timeout=10)] *)
  session_get : string -> World -> result Response * World;
  (** [BeautifulSoup(html, 'html.parser')]; [None] when the parser raises. *)
  BeautifulSoup : string -> option Soup;
  (** [json.loads] on the text of a page script; [None] stands for
      [JSONDecodeError]. *)
  json_loads : string -> option pyval;
  (** [datetime.fromisoformat]; [None] stands for [ValueError]. *)
  fromisoformat : string -> option datetime;
  (** [datetime.now().astimezone()] *)
  now_astimezone : World -> datetime * World;
  (** [datetime.now().isoformat()] *)
  now_isoformat : World -> string * World;
  (** [time.sleep(random.uniform(0.5, 1.5) * delay)] *)
  sleep : World -> World
}.

(** The calls to [self.logger] made by [check_promo_url], [search_promos]
    and, after a write, [save_results]: they record what became of each
    code.  The messages of [load_results] and of the handlers in
    [extract_company_name] and [save_results] are not kept. *)
Inductive log_entry : Type :=
| LogFound (promo_code : string) (company_name : pyval) (status : string)
| LogNotValid (promo_code : string)
| LogHTTP (promo_code : string) (status_code : Z)
| LogRequestFailed (promo_code : string)
| LogStartingFrom (start_from : string)
| LogStartNotFound (start_from : string)
| LogSearching (n : nat)
| LogChecking (i n : nat) (code : string)
| LogSaved
| LogComplete (found_count : nat).

(** ** The finder *)

Definition base_url : string := "https://www.alaskaair.com/promo/".

Section Finder.
Variable E : Env.

(** *** [extract_company_name] *)

(** [json.loads(script.string)] *)
Definition load_script (script : option string) : result pyval :=
  match script with
  | None => Raise TypeError
  | Some s =>
      match json_loads E s with
      | Some data => Ok data
      | None => Raise JSONDecodeError
      end
  end.

(** The test ['props' in data and 'pageProps' in data['props']]. *)
Definition has_page_props (data : pyval) : result bool :=
  b <- py_in "props" data ;;
  if b then (props <- py_getitem data "props" ;; py_in "pageProps" props)
  else Ok false.

(** [data['props']['pageProps']] *)
Definition page_props (data : pyval) : result pyval :=
  props <- py_getitem data "props" ;;
  py_getitem props "pageProps".

(** Method 1 on one script: [Ok (Some name)] when the body of the loop
    returns [name], [Ok None] when it falls through to the next script. *)
Definition script_company_name (script : option string)
  : result (option pyval) :=
  data <- load_script script ;;
  b <- has_page_props data ;;
  if b then
    pp <- page_props data ;;
    content <- py_get pp "content" (PDict []) ;;
    company_name <- py_get content "company_name" PNone ;;
    if truthy company_name then Ok (Some company_name)
    else
      pp' <- page_props data ;;
      promo_data <- py_get pp' "promo_data" (PDict []) ;;
      company_name' <- py_get promo_data "company_name" PNone ;;
      if truthy company_name' then Ok (Some company_name')
      else Ok None
  else Ok None.

(** The loop over the scripts: [JSONDecodeError] and [KeyError] skip to the
    next script, any other exception leaves the loop. *)
Fixpoint company_from_scripts (l : list (option string))
  : result (option pyval) :=
  match l with
  | [] => Ok None
  | script :: l' =>
      match script_company_name script with
      | Ok (Some name) => Ok (Some name)
      | Ok None => company_from_scripts l'
      | Raise JSONDecodeError => company_from_scripts l'
      | Raise KeyError => company_from_scripts l'
      | Raise e => Raise e
      end
  end.

(** The loop of methods 2 and 3: the first pattern with a match gives the
    group of its first match. *)
Fixpoint first_match (patterns : list Re.regex) (text_content : string)
  : option string :=
  match patterns with
  | [] => None
  | pattern :: rest =>
      match Re.findall true pattern text_content with
      | m :: _ => Some m
      | [] => first_match rest text_content
      end
  end.

(** [extract_company_name]; [PNone] is Python's [None].  The handler of
    the outer [try] returns [None] after logging. *)
Definition extract_company_name (html_content : string) : pyval :=
  match BeautifulSoup E html_content with
  | None => PNone
  | Some soup =>
      match company_from_scripts (scripts soup) with
      | Raise _ => PNone
      | Ok (Some name) => name
      | Ok None =>
          let text_content := PyStr.lower (get_text soup) in
          match first_match email_patterns text_content with
          | Some m => PStr (PyStr.title m)
          | None =>
              match first_match company_indicators text_content with
              | Some m => PStr (PyStr.title (PyStr.strip m))
              | None => PNone
              end
          end
      end
  end.

(** *** [check_promo_url] *)

(** The test for a genuine promo page. *)
Definition is_promo_page (body : string) : bool :=
  PyStr.contains "fast track" (PyStr.lower body)
  || PyStr.contains "mileage plan" (PyStr.lower body).

(** The test for an explicit expiration message. *)
Definition has_expiration_phrase (body : string) : bool :=
  PyStr.contains "promotion ended" (PyStr.lower body)
  || PyStr.contains "expired" (PyStr.lower body).

(** [expiration_match.group(1)] when the date pattern matches the body. *)
Definition expiration_match (body : string) : option string :=
  match Re.search true expiration_pattern body with
  | Some m => Some (Re.group_text m)
  | None => None
  end.

(** Truth value of [expiration_info], which is [None] or a string. *)
Definition info_truthy (info : option string) : bool :=
  match info with
  | Some s => negb (String.eqb s EmptyString)
  | None => false
  end.

(** The inner [try] of the date check on one script, up to the parsed
    [end_datetime]: [Ok None] when there is no end date or it is malformed
    ([ValueError] is caught on the spot). *)
Definition script_end_datetime (script : option string)
  : result (option datetime) :=
  data <- load_script script ;;
  b <- has_page_props data ;;
  if b then
    pp <- page_props data ;;
    promo_data <- py_get pp "promo_data" (PDict []) ;;
    end_date <- py_get promo_data "end_date" PNone ;;
    if truthy end_date then
      match end_date with
      | PStr s => Ok (fromisoformat E (PyStr.replace_char "Z" "+00:00" s))
      | _ => Raise AttributeError
      end
    else Ok None
  else Ok None.

(** The loop of the date check.  The state is [(status, expiration_info)]
    and the world.  An exception other than [JSONDecodeError] and
    [KeyError] reaches the outer handler, which ends the loop and keeps
    the state. *)
Fixpoint end_date_loop (l : list (option string))
         (status : string) (expiration_info : option string) (w : World E)
  : string * option string * World E :=
  match l with
  | [] => (status, expiration_info, w)
  | script :: l' =>
      match script_end_datetime script with
      | Ok None => end_date_loop l' status expiration_info w
      | Ok (Some end_datetime) =>
          let (now, w1) := now_astimezone E w in
          match DateTime.lt end_datetime now with
          | Ok true =>
              end_date_loop l' "expired"
                (if info_truthy expiration_info then expiration_info
                 else Some (strftime_mdY end_datetime))
                w1
          | Ok false => end_date_loop l' status expiration_info w1
          | Raise _ => (status, expiration_info, w1)
          end
      | Raise JSONDecodeError => end_date_loop l' status expiration_info w
      | Raise KeyError => end_date_loop l' status expiration_info w
      | Raise _ => (status, expiration_info, w)
      end
  end.

(** The status and expiration date of a genuine promo page. *)
Definition expiration (body : string) (w : World E)
  : string * option string * World E :=
  let status := "active" in
  let expiration_info := None in
  let '(status, expiration_info) :=
    if has_expiration_phrase body
    then ("expired", expiration_match body)
    else (status, expiration_info) in
  match BeautifulSoup E body with
  | Some soup => end_date_loop (scripts soup) status expiration_info w
  | None => (status, expiration_info, w)
  end.

(** The [result] dict. *)
Definition make_record (promo_code url : string) (company_name : pyval)
           (found_date status : string) (expiration_info : option string)
  : dict pyval :=
  let result :=
    [ ("promo_code", PStr promo_code);
      ("url", PStr url);
      ("company_name", company_name);
      ("found_date", PStr found_date);
      ("status", PStr status) ] in
  if info_truthy expiration_info then
    match expiration_info with
    | Some d => dict_set "expiration_date" (PStr d) result
    | None => result
    end
  else result.

(** [check_promo_url]: the returned value ([Ok None] is Python's [None],
    [Raise] an exception that leaves the method), the log entry written,
    and the world afterwards. *)
Definition check_promo_url (promo_code : string) (w : World E)
  : result (option (dict pyval)) * list log_entry * World E :=
  let url := urljoin E base_url promo_code in
  match session_get E url w with
  | (Ok response, w1) =>
      if (status_code response =? 200)%Z then
        if is_promo_page (text response) then
          let company_name := extract_company_name (text response) in
          let '(status, expiration_info, w2) :=
            expiration (text response) w1 in
          let (found_date, w3) := now_isoformat E w2 in
          (Ok (Some (make_record promo_code url company_name found_date
                                 status expiration_info)),
           [LogFound promo_code company_name status], w3)
        else (Ok None, [LogNotValid promo_code], w1)
      else (Ok None, [LogHTTP promo_code (status_code response)], w1)
  | (Raise RequestException, w1) =>
      (Ok None, [LogRequestFailed promo_code], w1)
  | (Raise e, w1) => (Raise e, [], w1)
  end.

End Finder.

(** *** The finder object and the scan *)

(** The attributes of [self] that the scan reads and writes, the files on
    disk (path to contents), the log, and the world. *)
Record Finder (E : Env) : Type := {
  results_file : string;
  results : pyval;
  files : dict string;
  log : list log_entry;
  world : World E
}.
Arguments results_file {E} f.
Arguments results {E} f.
Arguments files {E} f.
Arguments log {E} f.
Arguments world {E} f.

Section Scan.
Variable E : Env.

Definition set_results (st : Finder E) (r : pyval) : Finder E :=
  {| results_file := results_file st; results := r; files := files st;
     log := log st; world := world st |}.

Definition set_files (st : Finder E) (fs : dict string) : Finder E :=
  {| results_file := results_file st; results := results st; files := fs;
     log := log st; world := world st |}.

Definition set_world (st : Finder E) (w : World E) : Finder E :=
  {| results_file := results_file st; results := results st;
     files := files st; log := log st; world := w |}.

Definition write_log (st : Finder E) (entries : list log_entry) : Finder E :=
  {| results_file := results_file st; results := results st;
     files := files st; log := (log st ++ entries)%list; world := world st |}.

(** [load_results]: when the file exists, its decoded contents become
    [self.results]; a decoding error, or a value without a length for the
    log line that follows, leaves the empty dict. *)
Definition load_results (st : Finder E) : Finder E :=
  match dict_get (results_file st) (files st) with
  | Some contents =>
      match Json.loads contents with
      | Some v =>
          match py_len v with
          | Ok _ => set_results st v
          | Raise _ => set_results st (PDict [])
          end
      | None => set_results st (PDict [])
      end
  | None => st
  end.

(** [save_results]: the file is overwritten with the whole store.  Opening
    and writing the file are taken to succeed; the handler of the [try]
    would only log. *)
Definition save_results (st : Finder E) : Finder E :=
  write_log
    (set_files st (dict_set (results_file st) (Json.dumps (results st))
                            (files st)))
    [LogSaved].

(** [__init__]: an empty store, then [load_results]. *)
Definition init (path : string) (fs : dict string) (w : World E) : Finder E :=
  load_results
    {| results_file := path; results := PDict []; files := fs;
       log := []; world := w |}.

(** [codes.index(x)]; [None] stands for [ValueError]. *)
Fixpoint index_of (x : string) (l : list string) : option nat :=
  match l with
  | [] => None
  | y :: l' =>
      if String.eqb y x then Some O
      else match index_of x l' with
           | Some i => Some (S i)
           | None => None
           end
  end.

(** [l[:n]]: a negative bound counts from the end. *)
Definition slice_to {A : Type} (n : Z) (l : list A) : list A :=
  if (0 <=? n)%Z then firstn (Z.to_nat n) l
  else firstn (List.length l - Z.to_nat (- n)) l.

(** Truth value of [start_from], which is [None] or a string. *)
Definition start_truthy (start_from : option string) : bool :=
  match start_from with
  | Some s => negb (String.eqb s EmptyString)
  | None => false
  end.

(** Truth value of [max_codes], which is [None] or an integer. *)
Definition max_truthy (max_codes : option Z) : bool :=
  match max_codes with
  | Some n => negb (Z.eqb n 0)
  | None => false
  end.

(** The candidate codes of a scan and the log lines written while
    choosing them. *)
Definition select_codes (max_codes : option Z) (start_from : option string)
  : list string * list log_entry :=
  let codes := generate_promo_codes in
  let (codes, entries) :=
    match start_from with
    | Some s =>
        if start_truthy start_from then
          match index_of s codes with
          | Some start_index => (skipn start_index codes, [LogStartingFrom s])
          | None => (codes, [LogStartNotFound s])
          end
        else (codes, [])
    | None => (codes, [])
    end in
  let codes :=
    match max_codes with
    | Some n => if max_truthy max_codes then slice_to n codes else codes
    | None => codes
    end in
  (codes, entries).

(** The loop of [search_promos] over the codes from position [i] on;
    [total] is [len(codes)].  A code already in the store is skipped
    before anything else happens.  The value is the final [found_count],
    or the exception that left the loop. *)
Fixpoint scan_codes (total i : nat) (l : list string) (found_count : nat)
         (st : Finder E) : result nat * Finder E :=
  match l with
  | [] => (Ok found_count, st)
  | code :: l' =>
      match py_in code (results st) with
      | Raise e => (Raise e, st)
      | Ok true => scan_codes total (S i) l' found_count st
      | Ok false =>
          let st1 := write_log st [LogChecking (S i) total code] in
          let '(r, entries, w1) := check_promo_url E code (world st1) in
          let st2 := write_log (set_world st1 w1) entries in
          match r with
          | Raise e => (Raise e, st2)
          | Ok None =>
              scan_codes total (S i) l' found_count
                         (set_world st2 (sleep E (world st2)))
          | Ok (Some record) =>
              match py_setitem (results st2) code (PDict record) with
              | Raise e => (Raise e, st2)
              | Ok results' =>
                  let st3 := set_results st2 results' in
                  let found_count' := S found_count in
                  let st4 :=
                    if (found_count' mod 5 =? 0)%nat
                    then save_results st3 else st3 in
                  scan_codes total (S i) l' found_count'
                             (set_world st4 (sleep E (world st4)))
              end
          end
      end
  end.

(** [search_promos] *)
Definition search_promos (max_codes : option Z) (start_from : option string)
           (st : Finder E) : result unit * Finder E :=
  let (codes, entries) := select_codes max_codes start_from in
  let st1 := write_log st (entries ++ [LogSearching (List.length codes)])%list in
  match scan_codes (List.length codes) 0 codes 0 st1 with
  | (Ok found_count, st2) =>
      (Ok tt, write_log (save_results st2) [LogComplete found_count])
  | (Raise e, st2) => (Raise e, st2)
  end.

End Scan.

(** ** Queries on the store

    [search_by_company] and [list_all_promos] read [self.results] only; they
    are functions of that value.  What [list_all_promos] prints is kept
    line by line, each line as the values its f-string interpolates (the
    fixed texts hold characters outside the character type of [string]). *)





(** [s.ljust(w)], which the format specification [<w] applies to a
    string. *)
Definition ljust (w : nat) (s : string) : string :=
  s ++ PyStr.repeat_char " " (w - String.length s).

(** [x[:n]]: strings and lists are sliced; other objects raise [TypeError]
    (a dict raises [KeyError] instead from Python 3.12 on). *)
Definition py_slice_to (n : nat) (v : pyval) : result pyval :=
  match v with
  | PStr s => Ok (PStr (PyStr.take n s))
  | PList l => Ok (PList (firstn n l))
  | _ => Raise TypeError
  end.

(** A line printed by [list_all_promos]. *)
Inductive line : Type :=
| NoPromosLine                       (* "No promos found yet. ..." *)
| TitleLine (n : nat)                (* "... Found n Alaska Airlines ..." *)
| HeaderLine                         (* the column titles *)
| RuleLine                           (* 95 dashes *)
| RowLine (code company : string)    (* the padded code and company cells, *)
          (expired : bool)           (* which status text is shown, *)
          (url : pyval).             (* and the value printed as URL *)

(** The body of the loop of [list_all_promos]: the row of one record. *)
Definition promo_row (code : string) (data : pyval) : result line :=
  company <- py_get data "company_name" (PStr "Unknown") ;;
  company <- py_slice_to 33 company ;;
  status <- py_get data "status" (PStr "unknown") ;;
  url <- py_get data "url" (PStr EmptyString) ;;
  (* f"{company:<35}": [company] is a string or a list here, and a list
     accepts no format specification *)
  cell <- match company with
          | PStr s => Ok (ljust 35 s)
          | _ => Raise TypeError
          end ;;
  Ok (RowLine (ljust 8 code) cell (is_str "expired" status) url).

(** [sorted(self.results.items())]: the keys of a dict are distinct, so the
    order of two items is that of their codes. *)
Fixpoint insert_item (kv : string * pyval) (l : list (string * pyval))
  : list (string * pyval) :=
  match l with
  | [] => [kv]
  | y :: l' =>
      if String.ltb (fst kv) (fst y) then kv :: y :: l'
      else y :: insert_item kv l'
  end.

Definition sorted_items (d : list (string * pyval)) : list (string * pyval) :=
  fold_left (fun acc kv => insert_item kv acc) d [].

(** The loop over the sorted items: the lines printed so far, and how the
    loop ends. *)
Fixpoint print_rows (items : list (string * pyval)) (printed : list line)
  : list line * result unit :=
  match items with
  | [] => (printed, Ok tt)
  | (code, data) :: rest =>
      match promo_row code data with
      | Ok row => print_rows rest (printed ++ [row])%list
      | Raise e => (printed, Raise e)
      end
  end.

(** [list_all_promos]: the lines printed, and [Ok tt] or the exception
    raised. *)
Definition list_all_promos (results : pyval) : list line * result unit :=
  if negb (truthy results) then ([NoPromosLine], Ok tt)
  else
    match py_len results with
    | Raise e => ([], Raise e)
    | Ok n =>
        let printed := [TitleLine n; HeaderLine; RuleLine] in
        match results with
        | PDict d => print_rows (sorted_items d) printed
        | _ => (printed, Raise AttributeError)
        end
    end.

(** ** A concrete environment

    A small site with canned responses, used to run the finder on concrete
    inputs: the remote site is a table from URL to the outcome of the
    request (an unknown URL answers 404), the HTML parser is a table from
    page text to its parse (an unlisted page is plain text without
    scripts), [json.loads] is the reader of [Json], and the clock reads a
    fixed time.  The world counts the calls made so far. *)

Module Fixture.

(** All characters of [s] are digits: their decimal value. *)
Definition number (s : string) : option nat :=
  match s with
  | EmptyString => None
  | _ =>
      if forallb PyStr.is_digit (list_ascii_of_string s)
      then Some (Z.to_nat (Json.digits_value 0 s))
      else None
  end.

Definition char_at (i : nat) (s : string) : option ascii := String.get i s.

Definition is_char (c : ascii) (o : option ascii) : bool :=
  match o with
  | Some c' => Ascii.eqb c c'
  | None => false
  end.

(** The offset suffix [+HH:MM] or [-HH:MM], in microseconds. *)
Definition parse_offset (s : string) : option Z :=
  match number (substring 1 2 s), number (substring 4 2 s) with
  | Some h, Some m =>
      let us := ((Z.of_nat h * 60 + Z.of_nat m) * 60 * 1000000)%Z in
      if (String.length s =? 6)%nat && is_char ":" (char_at 3 s) then
        if is_char "+" (char_at 0 s) then Some us
        else if is_char "-" (char_at 0 s) then Some (- us)%Z
        else None
      else None
  | _, _ => None
  end.

(** [datetime.fromisoformat] on the format
    [YYYY-MM-DDTHH:MM:SS], with or without an offset [+HH:MM]; any other
    text is rejected. *)
Definition parse_iso (s : string) : option datetime :=
  match number (substring 0 4 s), number (substring 5 2 s),
        number (substring 8 2 s), number (substring 11 2 s),
        number (substring 14 2 s), number (substring 17 2 s) with
  | Some y, Some mo, Some d, Some h, Some mi, Some sec =>
      if is_char "-" (char_at 4 s) && is_char "-" (char_at 7 s)
         && is_char "T" (char_at 10 s) && is_char ":" (char_at 13 s)
         && is_char ":" (char_at 16 s)
         && (1 <=? mo)%nat && (mo <=? 12)%nat && (1 <=? d)%nat && (d <=? 31)%nat
         && (1 <=? y)%nat && (h <? 24)%nat && (mi <? 60)%nat && (sec <? 60)%nat
      then
        if (String.length s =? 19)%nat then
          Some {| year := y; month := mo; day := d; hour := h; minute := mi;
                  second := sec; microsecond := 0; utcoffset := None |}
        else
          match parse_offset (PyStr.drop 19 s) with
          | Some off =>
              Some {| year := y; month := mo; day := d; hour := h;
                      minute := mi; second := sec; microsecond := 0;
                      utcoffset := Some off |}
          | None => None
          end
      else None
  | _, _, _, _, _, _ => None
  end.

Record Site : Type := {
  pages : dict (result Response);   (* by URL *)
  parses : dict Soup;               (* by page text *)
  clock : datetime;                 (* [datetime.now().astimezone()] *)
  clock_iso : string                (* [datetime.now().isoformat()] *)
}.

Definition not_found : Response :=
  {| status_code := 404; text := "Not Found" |}.

Definition env (site : Site) : Env :=
  {| World := nat;
     urljoin := fun base code => base ++ code;
     session_get := fun url w =>
       (match dict_get url (pages site) with
        | Some r => r
        | None => Ok not_found
        end, S w);
     BeautifulSoup := fun html =>
       Some (match dict_get html (parses site) with
             | Some soup => soup
             | None => {| scripts := []; get_text := html |}
             end);
     json_loads := Json.loads;
     fromisoformat := parse_iso;
     now_astimezone := fun w => (clock site, S w);
     now_isoformat := fun w => (clock_iso site, S w);
     sleep := fun w => S w |}.

(** 4 November 2026, noon, UTC. *)
Definition noon : datetime :=
  {| year := 2026; month := 11; day := 4; hour := 12; minute := 0;
     second := 0; microsecond := 0; utcoffset := Some 0%Z |}.

Definition script_open : string := "<script type=application/json>".
Definition script_close : string := "</script>".

(** A page: visible text, then one script element per payload. *)
Definition page_text (visible : string) (payloads : list pyval) : string :=
  "<html><body><p>" ++ visible ++ "</p>"
    ++ String.concat EmptyString (map (fun v => script_open ++ Json.dumps v ++ script_close)
                      payloads)
    ++ "</body></html>".

Definition page_soup (visible : string) (payloads : list pyval) : Soup :=
  {| scripts := map (fun v => Some (Json.dumps v)) payloads;
     get_text := visible |}.

Definition url_of (code : string) : string := base_url ++ code.

(** A site serving the given pages (code, visible text, payloads) with
    status 200. *)
Definition serving (l : list (string * string * list pyval)) : Site :=
  {| pages := map (fun '(code, visible, payloads) =>
                     (url_of code,
                      Ok {| status_code := 200;
                            text := page_text visible payloads |})) l;
     parses := map (fun '(_, visible, payloads) =>
                      (page_text visible payloads,
                       page_soup visible payloads)) l;
     clock := noon;
     clock_iso := "2026-11-04T12:00:00" |}.

Definition page_props_payload (fields : list (string * pyval)) : pyval :=
  PDict [("props", PDict [("pageProps", PDict fields)])].

(** The payload [{"props":{"pageProps":{"content":{"company_name":"Acme
    Corp"}}}}]. *)
Definition acme : pyval :=
  page_props_payload [("content", PDict [("company_name", PStr "Acme Corp")])].

(** A payload whose promotion data carries the given end date. *)
Definition ending (end_date : string) : pyval :=
  page_props_payload [("promo_data", PDict [("end_date", PStr end_date)])].

Definition start (site : Site) (store : dict pyval) : Finder (env site) :=
  {| results_file := "alaska_promos.json"; results := PDict store;
     files := []; log := []; world := (O : World (env site)) |}.

End Fixture.

(** ** Vocabulary of the statements *)

(** The two decimal digits of a number below 100. *)
Definition two_digits (s : nat) : string :=
  String (ascii_of_nat (48 + s / 10))
         (String (ascii_of_nat (48 + s mod 10)) EmptyString).

(** *** Fetch outcomes and what the log says of a code *)

(** The request for [promo_code], made in world [w], returned HTTP 200 with
    a marker phrase in the body. *)
Definition good_fetch (E : Env) (promo_code : string) (w : World E) : Prop :=
  exists r w1,
    session_get E (urljoin E base_url promo_code) w = (Ok r, w1)
    /\ status_code r = 200%Z /\ is_promo_page (text r) = true.

(** The request returned another status or raised a network error. *)
Definition failed_fetch (E : Env) (promo_code : string) (w : World E) : Prop :=
  (exists r w1,
     session_get E (urljoin E base_url promo_code) w = (Ok r, w1)
     /\ status_code r <> 200%Z)
  \/ (exists w1,
        session_get E (urljoin E base_url promo_code) w
        = (Raise RequestException, w1)).

(** The request failed, or returned 200 without a marker phrase. *)
Definition bad_fetch (E : Env) (promo_code : string) (w : World E) : Prop :=
  failed_fetch E promo_code w
  \/ (exists r w1,
        session_get E (urljoin E base_url promo_code) w = (Ok r, w1)
        /\ status_code r = 200%Z /\ is_promo_page (text r) = false).

(** The code a log entry is about. *)
Definition entry_code (e : log_entry) : option string :=
  match e with
  | LogFound c _ _ => Some c
  | LogNotValid c => Some c
  | LogHTTP c _ => Some c
  | LogRequestFailed c => Some c
  | LogChecking _ _ c => Some c
  | _ => None
  end.

(** The log reports [c] as found. *)
Definition confirmed (entries : list log_entry) (c : string) : Prop :=
  exists company_name status, In (LogFound c company_name status) entries.

(** The log reports that the fetch of [c] gave no promo page. *)
Definition rejected (entries : list log_entry) (c : string) : Prop :=
  In (LogNotValid c) entries
  \/ (exists status_code, In (LogHTTP c status_code) entries)
  \/ In (LogRequestFailed c) entries.

(** The log reports that the scan went on to fetch [c]. *)
Definition checked (entries : list log_entry) (c : string) : Prop :=
  exists i n, In (LogChecking i n c) entries.

(** Every code the log reports as fetched is reported found or rejected. *)
Definition complete (entries : list log_entry) : Prop :=
  forall c, checked entries c -> confirmed entries c \/ rejected entries c.

(** Every code of [l] that the store [d] lacks is reported as fetched. *)
Definition covered (l : list string) (d : dict pyval)
           (entries : list log_entry) : Prop :=
  forall c, In c l -> dict_mem c d = false -> checked entries c.

(** The outcome of a request depends on the URL only, not on when it is
    made. *)
Definition static_site (E : Env) : Prop :=
  forall url w w', fst (session_get E url w) = fst (session_get E url w').

(** What a scan of the codes [l] that starts with the store [d] leaves
    behind: the store [d'] and the log entries [entries] it wrote. *)
Record scan_facts (E : Env) (l : list string) (d d' : dict pyval)
       (entries : list log_entry) : Prop := {
  (** the codes in the store are those it had and those reported found *)
  sf_store : forall c,
    dict_mem c d' = true <-> dict_mem c d = true \/ confirmed entries c;
  (** the records it had are untouched *)
  sf_frame : forall c, dict_mem c d = true -> dict_get c d' = dict_get c d;
  (** the log speaks only of scanned codes that were not in the store *)
  sf_codes : forall e c,
    In e entries -> entry_code e = Some c -> In c l /\ dict_mem c d = false;
  (** a code reported found was fetched with HTTP 200 and a marker phrase *)
  sf_good : forall c, confirmed entries c -> exists w, good_fetch E c w;
  (** a code reported rejected was fetched without that outcome *)
  sf_bad : forall c, rejected entries c -> exists w, bad_fetch E c w;
  (** among distinct codes, none is reported both ways *)
  sf_once : NoDup l -> forall c, rejected entries c -> ~ confirmed entries c
}.

(** *** Structured data that names an organization *)



(** *** Stores that are written to disk *)








(** ** Scenarios *)

Definition ok_response (body : string) : Response :=
  {| status_code := 200; text := body |}.

(** A genuine promo page that says "expired", gives no date after
    "promotion ended", and whose structured data ends in the year 2999. *)
Definition expired_future_body : string :=
  Fixture.page_text "Mileage Plan: this offer has expired"
                    [Fixture.ending "2999-01-01T00:00:00Z"].

Definition site_expired_future : Fixture.Site :=
  Fixture.serving [("AS2305", "Mileage Plan: this offer has expired",
                    [Fixture.ending "2999-01-01T00:00:00Z"])].

(** A genuine promo page with the phrase "Promotion ended on 1/2/2024" and a
    structured end date in 2020. *)
Definition both_dates_body : string :=
  Fixture.page_text "Mileage Plan. Promotion ended on 1/2/2024"
                    [Fixture.ending "2020-01-01T00:00:00Z"].

Definition site_both_dates : Fixture.Site :=
  Fixture.serving [("AS2305", "Mileage Plan. Promotion ended on 1/2/2024",
                    [Fixture.ending "2020-01-01T00:00:00Z"])].


Definition site_acme : Fixture.Site :=
  Fixture.serving [("AS2307", "Join Mileage Plan today", [Fixture.acme])].



(** A site with two genuine promo pages and one page without a marker
    phrase; every other code answers 404. *)
Definition site_scan : Fixture.Site :=
  Fixture.serving
    [ ("AS2305", "Mileage Plan. Promotion ended on 1/2/2024",
       [Fixture.ending "2020-01-01T00:00:00Z"]);
      ("AS2307", "Join Mileage Plan today", [Fixture.acme]);
      ("CS2344", "Page not available", []) ].

(** A store that already holds a record for AS2305. *)
Definition old_store : dict pyval :=
  [ ("AS2305",
     PDict [ ("promo_code", PStr "AS2305");
             ("url", PStr "https://www.alaskaair.com/promo/AS2305");
             ("company_name", PStr "Initech");
             ("found_date", PStr "2025-01-01T00:00:00");
             ("status", PStr "active") ]) ].

(** A site whose request for AS2399 times out. *)
Definition site_timeout : Fixture.Site :=
  {| Fixture.pages := [(Fixture.url_of "AS2399", Raise RequestException)];
     Fixture.parses := [];
     Fixture.clock := Fixture.noon;
     Fixture.clock_iso := "2026-11-04T12:00:00" |}.

(** A store with two records; one company name holds a quotation mark, a
    backslash and a line break, the other is [None]. *)
Definition sample_store : dict pyval :=
  [ ("AS2307",
     PDict [ ("promo_code", PStr "AS2307");
             ("url", PStr "https://www.alaskaair.com/promo/AS2307");
             ("company_name",
              PStr ("Acme " ++ String Json.dq ("Corp" ++ String Json.dq
                      (String Json.backslash (String Json.newline "Ltd")))));
             ("found_date", PStr "2026-11-04T12:00:00");
             ("status", PStr "expired");
             ("expiration_date", PStr "1/2/2024") ]);
    ("CS2344",
     PDict [ ("promo_code", PStr "CS2344");
             ("url", PStr "https://www.alaskaair.com/promo/CS2344");
             ("company_name", PNone);
             ("found_date", PStr "2026-11-04T12:00:01");
             ("status", PStr "active") ]) ].

(** ** The steps of the scan *)

(** The finder after the log line "Checking" and the call of
    [check_promo_url], which logged [logged] and left the world [w1]. *)
Definition checked_state (E : Env) (st : Finder E) (i total : nat)
           (code : string) (logged : list log_entry) (w1 : World E)
  : Finder E :=
  write_log E
    (set_world E (write_log E st [LogChecking (S i) total code]) w1) logged.

(** The finder after a new record was stored as the [S found_count]-th of
    the scan: every fifth one triggers [save_results]. *)
Definition stored_state (E : Env) (st : Finder E) (results' : pyval)
           (found_count : nat) : Finder E :=
  if (S found_count mod 5 =? 0)%nat
  then save_results E (set_results E st results')
  else set_results E st results'.

(** The finder after the pause that ends an iteration. *)
Definition slept_state (E : Env) (st : Finder E) : Finder E :=
  set_world E st (sleep E (world st)).

(** ** Stores that the queries read *)



(** A record [list_all_promos] can print: a dict whose [company_name] is
    absent or a string. *)
Definition listable (data : pyval) : bool :=
  match data with
  | PDict r =>
      match dict_get "company_name" r with
      | Some (PStr _) | None => true
      | Some _ => false
      end
  | _ => false
  end.

Definition is_record (data : pyval) : bool :=
  match data with
  | PDict _ => true
  | _ => false
  end.

(** A dict whose [company_name], if present, is no dict itself.  (Slicing
    a dict is the one step of [list_all_promos] whose exception depends on
    the version of Python.) *)
Definition plain_record (data : pyval) : bool :=
  match data with
  | PDict r =>
      match dict_get "company_name" r with
      | Some (PDict _) => false
      | _ => true
      end
  | _ => false
  end.

(** The line [ln] is the row of the item [kv]: the code, then the first 33
    characters of the name (or of "Unknown" when the record has none) in a
    cell of 35, the status text of the record, and its URL. *)
Definition shows (kv : string * pyval) (ln : line) : Prop :=
  exists r cell expired url,
    snd kv = PDict r
    /\ ln = RowLine (ljust 8 (fst kv)) cell expired url
    /\ cell = ljust 35 (PyStr.take 33
                (match dict_get "company_name" r with
                 | Some (PStr name) => name
                 | _ => "Unknown"
                 end))
    /\ String.length cell = 35
    /\ (expired = true <-> dict_get "status" r = Some (PStr "expired"))
    /\ url = match dict_get "url" r with
             | Some u => u
             | None => PStr EmptyString
             end.

(** The order of two items of a store: that of their codes. *)
Definition code_lt (a b : string * pyval) : Prop :=
  String.ltb (fst a) (fst b) = true.

(** A site with one genuine promo page that names no organization. *)
Definition site_unnamed : Fixture.Site :=
  Fixture.serving [("AS2301", "Join Mileage Plan today", [])].

(** ** Script elements that the loops pass over or stop at *)

(** The date check finds nothing in the script and goes on to the next. *)
Definition dateless (E : Env) (script : option string) : Prop :=
  script_end_datetime E script = Ok None
  \/ script_end_datetime E script = Raise JSONDecodeError
  \/ script_end_datetime E script = Raise KeyError.

(** A JSON value that is no container: [None], a boolean or a number. *)
Definition is_scalar (v : pyval) : bool :=
  match v with
  | PNone | PBool _ | PInt _ | PFloat _ => true
  | _ => false
  end.

(** A genuine promo page with two structured end dates in 2020: the first
    without a UTC offset, the second with one. *)
Definition site_naive_date : Fixture.Site :=
  Fixture.serving [("AS2311", "Join Mileage Plan today",
                    [Fixture.ending "2020-01-01T00:00:00";
                     Fixture.ending "2020-01-01T00:00:00Z"])].

(** A page whose visible text holds an e-mail address and whose only
    script element holds the JSON value [null]. *)
Definition null_script_body : string :=
  Fixture.page_text "Mileage Plan for staff@acme.edu" [PNone].

Definition site_null_script : Fixture.Site :=
  Fixture.serving [("AS2312", "Mileage Plan for staff@acme.edu", [PNone])].

(** ** Counting log lines *)

Definition is_found (e : log_entry) : bool :=
  match e with
  | LogFound _ _ _ => true
  | _ => false
  end.

Definition is_checking (e : log_entry) : bool :=
  match e with
  | LogChecking _ _ _ => true
  | _ => false
  end.

Definition is_saved (e : log_entry) : bool :=
  match e with
  | LogSaved => true
  | _ => false
  end.

Definition count (f : log_entry -> bool) (entries : list log_entry) : nat :=
  List.length (filter f entries).

(** A results file that holds a JSON array. *)
Definition array_file : dict string := [("alaska_promos.json", "[]")].

(** ** What a pattern matches

    [sem ic r s cap s' cap']: the pattern [r] matches a prefix of [s] that
    leaves [s']; [cap] is the text of the group before, [cap'] after. *)



(** ** The shape of an expiration date *)



(** ** Names taken from the page text *)






(** * Properties *)

(** ** Code generation *)

Lemma append_prefix_eq (all_codes : list string) (prefix : string) :
  append_prefix all_codes prefix
  = (all_codes ++ map (fun code => (prefix ++ code)%string) codes)%list.
Proof.
  unfold append_prefix. generalize codes as l. intros l.
  revert all_codes. induction l as [|c l IH]; intros acc; simpl.
  - now rewrite app_nil_r.
  - rewrite IH, <- app_assoc. reflexivity.
Qed.

Lemma fold_append_prefix (ps : list string) (acc : list string) :
  fold_left append_prefix ps acc
  = (acc ++ flat_map (fun prefix => map (fun code => (prefix ++ code)%string) codes) ps)%list.
Proof.
  revert acc. induction ps as [|p ps IH]; intros acc; simpl.
  - now rewrite app_nil_r.
  - rewrite IH, append_prefix_eq, <- app_assoc. reflexivity.
Qed.

Lemma generate_promo_codes_product :
  generate_promo_codes
  = flat_map (fun prefix => map (fun code => (prefix ++ code)%string) codes) prefixes.
Proof. unfold generate_promo_codes. now rewrite fold_append_prefix. Qed.

Lemma product_length (ps cs : list string) :
  List.length (flat_map (fun prefix => map (fun code => (prefix ++ code)%string) cs) ps)
  = (List.length ps * List.length cs)%nat.
Proof.
  induction ps as [|p ps IH]; simpl; [reflexivity|].
  now rewrite length_app, length_map, IH.
Qed.

Lemma existsb_eqb_In (x : string) (l : list string) :
  existsb (String.eqb x) l = true <-> In x l.
Proof.
  rewrite existsb_exists. split.
  - intros [y [Hy He]]. apply String.eqb_eq in He. now subst.
  - intros H. exists x. split; [assumption | apply String.eqb_refl].
Qed.

Lemma nodupb_NoDup (l : list string) : nodupb l = true -> NoDup l.
Proof.
  induction l as [|x l IH]; simpl; intros H; constructor.
  - apply andb_prop in H. destruct H as [H _].
    intros Hin. apply existsb_eqb_In in Hin. rewrite Hin in H. discriminate.
  - apply IH. apply andb_prop in H. tauto.
Qed.

Lemma codes_two_digits : codes = map two_digits (seq 0 100).
Proof. vm_compute. reflexivity. Qed.

(** C6. [generate_promo_codes] returns 6 x 100 = 600 strings, pairwise
    distinct, in prefix-major and suffix-minor order: the code at position
    [100 * p + s] is the [p]-th prefix of AS23, CS23, AS24, CS24, AS25, CS25
    followed by the two decimal digits of [s], for [s] from 00 to 99.  The
    function takes no argument and reads no state, so every call returns
    this list. *)
Theorem generate_promo_codes_spec :
  List.length generate_promo_codes = (6 * 100)%nat
  /\ NoDup generate_promo_codes
  /\ generate_promo_codes
     = flat_map (fun prefix => map (fun s => (prefix ++ two_digits s)%string) (seq 0 100))
                ["AS23"; "CS23"; "AS24"; "CS24"; "AS25"; "CS25"]
  /\ Forall (fun p =>
       Forall (fun s =>
         nth_error generate_promo_codes (100 * p + s)
         = Some (nth p prefixes EmptyString ++ two_digits s))
         (seq 0 100))
       (seq 0 6).
Proof.
  split; [|split; [|split]].
  - rewrite generate_promo_codes_product, product_length. reflexivity.
  - apply nodupb_NoDup. vm_compute. reflexivity.
  - rewrite generate_promo_codes_product, codes_two_digits.
    unfold prefixes. apply flat_map_ext. intros p. now rewrite map_map.
  - apply Forall_forall. intros p Hp. apply Forall_forall. intros s Hs.
    apply in_seq in Hp. apply in_seq in Hs.
    assert (Hall : forallb (fun p =>
              forallb (fun s =>
                match nth_error generate_promo_codes (100 * p + s) with
                | Some c => String.eqb c (nth p prefixes EmptyString ++ two_digits s)
                | None => false
                end) (seq 0 100)) (seq 0 6) = true)
      by (vm_compute; reflexivity).
    rewrite forallb_forall in Hall.
    assert (Hp' : In p (seq 0 6)) by (apply in_seq; lia).
    specialize (Hall p Hp'). rewrite forallb_forall in Hall.
    assert (Hs' : In s (seq 0 100)) by (apply in_seq; lia).
    specialize (Hall s Hs').
    destruct (nth_error generate_promo_codes (100 * p + s)) as [c|];
      [|discriminate].
    apply String.eqb_eq in Hall. now subst.
Qed.

(** ** Scan bounds *)

(** The call of the demo script, [search_promos(max_codes=1,
    start_from="CS2344")], scans that one code. *)
Example demo_search_codes :
  select_codes (Some 1%Z) (Some "CS2344")
  = (["CS2344"], [LogStartingFrom "CS2344"]).
Proof. vm_compute. reflexivity. Qed.

(** A negative bound drops codes from the end, and an unknown start code
    leaves the whole sequence. *)
Example negative_bound_codes :
  List.length (fst (select_codes (Some (-5)%Z) (Some "ZZ0000"))) = 595%nat
  /\ snd (select_codes (Some (-5)%Z) (Some "ZZ0000"))
     = [LogStartNotFound "ZZ0000"].
Proof. split; vm_compute; reflexivity. Qed.




(** ** Regular-expression matching *)











(** ** The date check *)

Section DateCheck.
Variable E : Env.

Lemma end_date_loop_expired (l : list (option string))
      (info : option string) (w : World E) :
  fst (fst (end_date_loop E l "expired" info w)) = "expired".
Proof.
  revert info w. induction l as [|script l IH]; intros info w; simpl.
  - reflexivity.
  - destruct (script_end_datetime E script) as [[dt|]|e].
    + destruct (now_astimezone E w) as [now w1].
      destruct (DateTime.lt dt now) as [[|]|e]; [apply IH | apply IH | reflexivity].
    + apply IH.
    + destruct e; try reflexivity; apply IH.
Qed.



End DateCheck.

(** ** [check_promo_url] *)

Section CheckPromoUrl.
Variable E : Env.

Lemma make_record_status (promo_code url : string) (company_name : pyval)
      (found_date status : string) (info : option string) :
  dict_get "status"
    (make_record promo_code url company_name found_date status info)
  = Some (PStr status).
Proof.
  unfold make_record. destruct info as [d|]; [|reflexivity].
  destruct (info_truthy (Some d)); reflexivity.
Qed.

Lemma make_record_company_name (promo_code url : string) (company_name : pyval)
      (found_date status : string) (info : option string) :
  dict_get "company_name"
    (make_record promo_code url company_name found_date status info)
  = Some company_name.
Proof.
  unfold make_record. destruct info as [d|]; [|reflexivity].
  destruct (info_truthy (Some d)); reflexivity.
Qed.

Lemma make_record_expiration_date (promo_code url : string)
      (company_name : pyval) (found_date status : string)
      (info : option string) :
  dict_get "expiration_date"
    (make_record promo_code url company_name found_date status info)
  = if info_truthy info then option_map PStr info else None.
Proof.
  unfold make_record. destruct info as [d|]; [|reflexivity].
  destruct (info_truthy (Some d)); reflexivity.
Qed.

(** The record of a genuine promo page. *)
Lemma check_promo_url_found (promo_code : string) (w w1 : World E)
      (r : Response) :
  session_get E (urljoin E base_url promo_code) w = (Ok r, w1) ->
  status_code r = 200%Z ->
  is_promo_page (text r) = true ->
  check_promo_url E promo_code w
  = (Ok (Some (make_record promo_code (urljoin E base_url promo_code)
                 (extract_company_name E (text r))
                 (fst (now_isoformat E (snd (expiration E (text r) w1))))
                 (fst (fst (expiration E (text r) w1)))
                 (snd (fst (expiration E (text r) w1))))),
     [LogFound promo_code (extract_company_name E (text r))
               (fst (fst (expiration E (text r) w1)))],
     snd (now_isoformat E (snd (expiration E (text r) w1)))).
Proof.
  intros Hget Hstatus Hpage. unfold check_promo_url.
  rewrite Hget, Hstatus, Hpage. cbn [Z.eqb Pos.eqb].
  destruct (expiration E (text r) w1) as [[status info] w2].
  cbn [fst snd].
  destruct (now_isoformat E w2) as [found_date w3]. reflexivity.
Qed.

(** A response that is not a genuine promo page gives no record. *)
Lemma check_promo_url_none (promo_code : string) (w : World E) :
  (exists r w1,
     session_get E (urljoin E base_url promo_code) w = (Ok r, w1)
     /\ (status_code r <> 200%Z \/ is_promo_page (text r) = false))
  \/ (exists w1,
        session_get E (urljoin E base_url promo_code) w
        = (Raise RequestException, w1)) ->
  fst (fst (check_promo_url E promo_code w)) = Ok None
  /\ forall company_name status,
       ~ In (LogFound promo_code company_name status)
            (snd (fst (check_promo_url E promo_code w))).
Proof.
  intros [[r [w1 [Hget Hbad]]]|[w1 Hget]]; unfold check_promo_url;
    rewrite Hget.
  - destruct (Z.eqb_spec (status_code r) 200) as [He|Hne].
    + destruct Hbad as [Hne|Hpage]; [contradiction|]. rewrite Hpage.
      split; [reflexivity|]. intros cn s [H|[]]. discriminate.
    + split; [reflexivity|]. intros cn s [H|[]]. discriminate.
  - split; [reflexivity|]. intros cn s [H|[]]. discriminate.
Qed.

Lemma expiration_with_phrase (body : string) (w : World E) :
  has_expiration_phrase body = true ->
  fst (fst (expiration E body w)) = "expired".
Proof.
  intros Hp. unfold expiration. rewrite Hp.
  destruct (BeautifulSoup E body) as [soup|]; [|reflexivity].
  apply end_date_loop_expired.
Qed.



End CheckPromoUrl.

(** C1 (as the code has it).  When the page of a genuine promo contains an
    expiration phrase ("promotion ended" or "expired", in any case), the
    record produced by [check_promo_url] has status "expired": the phrase
    alone sets the status, whether or not the date pattern matches and
    whatever end date the structured data carries. *)
Theorem expiration_phrase_sets_expired (E : Env) (promo_code : string)
        (w w1 : World E) (r : Response) :
  session_get E (urljoin E base_url promo_code) w = (Ok r, w1) ->
  status_code r = 200%Z ->
  is_promo_page (text r) = true ->
  has_expiration_phrase (text r) = true ->
  exists record,
    fst (fst (check_promo_url E promo_code w)) = Ok (Some record)
    /\ dict_get "status" record = Some (PStr "expired").
Proof.
  intros Hget Hstatus Hpage Hphrase.
  rewrite (check_promo_url_found E promo_code w w1 r Hget Hstatus Hpage).
  eexists. split; [reflexivity|].
  rewrite make_record_status. now rewrite expiration_with_phrase.
Qed.



Lemma expiration_phrase_sets_expired_witness :
  exists record,
    fst (fst (check_promo_url (Fixture.env site_expired_future) "AS2305"
                              (0%nat : World (Fixture.env site_expired_future))))
    = Ok (Some record)
    /\ dict_get "status" record = Some (PStr "expired").
Proof.
  apply (expiration_phrase_sets_expired (Fixture.env site_expired_future)
           "AS2305" 0%nat 1%nat (ok_response expired_future_body));
    vm_compute; reflexivity.
Defined.

(** C1 (as stated) fails: on this page the text contains "expired", the date
    pattern does not match, the one script carries an end date in the year
    2999, later than the clock of the site, and the record has status
    "expired", not "active". *)
Lemma expired_phrase_with_future_end_date :
  let E := Fixture.env site_expired_future in
  let script := Some (Json.dumps (Fixture.ending "2999-01-01T00:00:00Z")) in
  session_get E (urljoin E base_url "AS2305") (0%nat : World E)
  = (Ok (ok_response expired_future_body), 1%nat)
  /\ is_promo_page expired_future_body = true
  /\ has_expiration_phrase expired_future_body = true
  /\ expiration_match expired_future_body = None
  /\ option_map scripts (BeautifulSoup E expired_future_body) = Some [script]
  /\ (exists end_datetime,
        script_end_datetime E script = Ok (Some end_datetime)
        /\ DateTime.lt (fst (now_astimezone E (1%nat : World E))) end_datetime
           = Ok true)
  /\ exists record,
       fst (fst (check_promo_url E "AS2305" (0%nat : World E)))
       = Ok (Some record)
       /\ dict_get "status" record = Some (PStr "expired")
       /\ dict_get "status" record <> Some (PStr "active").
Proof.
  cbv zeta.
  split; [vm_compute; reflexivity|].
  split; [vm_compute; reflexivity|].
  split; [vm_compute; reflexivity|].
  split; [vm_compute; reflexivity|].
  split; [vm_compute; reflexivity|].
  split.
  - exists {| year := 2999; month := 1; day := 1; hour := 0; minute := 0;
              second := 0; microsecond := 0; utcoffset := Some 0%Z |}.
    split; vm_compute; reflexivity.
  - eexists. split; [vm_compute; reflexivity|]. split.
    + vm_compute. reflexivity.
    + vm_compute. discriminate.
Qed.


(** The scenario of C3 on a concrete page: the phrase gives "1/2/2024", the
    structured end date would render as "01/01/2020", and the record keeps
    the former. *)
Example both_dates_record :
  expiration_match both_dates_body = Some "1/2/2024"
  /\ option_map strftime_mdY (Fixture.parse_iso "2020-01-01T00:00:00+00:00")
     = Some "01/01/2020"
  /\ fst (fst (check_promo_url (Fixture.env site_both_dates) "AS2305"
                               (0%nat : World (Fixture.env site_both_dates))))
     = Ok (Some [ ("promo_code", PStr "AS2305");
                  ("url", PStr "https://www.alaskaair.com/promo/AS2305");
                  ("company_name", PNone);
                  ("found_date", PStr "2026-11-04T12:00:00");
                  ("status", PStr "expired");
                  ("expiration_date", PStr "1/2/2024") ]).
Proof.
  split; [vm_compute; reflexivity|].
  split; vm_compute; reflexivity.
Qed.


(** ** Dictionaries *)

Lemma dict_get_set_same {V : Type} (k : string) (v : V) (d : dict V) :
  dict_get k (dict_set k v d) = Some v.
Proof.
  induction d as [|[k' v'] d IH]; simpl.
  - now rewrite String.eqb_refl.
  - destruct (String.eqb k k') eqn:He; simpl; rewrite He; [reflexivity | exact IH].
Qed.

Lemma dict_get_set_other {V : Type} (c k : string) (v : V) (d : dict V) :
  c <> k -> dict_get c (dict_set k v d) = dict_get c d.
Proof.
  intros Hne. induction d as [|[k' v'] d IH]; simpl.
  - destruct (String.eqb_spec c k); [contradiction | reflexivity].
  - destruct (String.eqb_spec k k') as [->|Hk]; simpl.
    + destruct (String.eqb_spec c k'); [contradiction | reflexivity].
    + destruct (String.eqb c k'); [reflexivity | exact IH].
Qed.

Lemma dict_mem_set {V : Type} (c k : string) (v : V) (d : dict V) :
  dict_mem c (dict_set k v d) = String.eqb c k || dict_mem c d.
Proof.
  unfold dict_mem. destruct (String.eqb_spec c k) as [->|Hne].
  - now rewrite dict_get_set_same.
  - now rewrite dict_get_set_other.
Qed.

(** ** What [check_promo_url] returns and logs *)

Lemma check_promo_url_outcome (E : Env) (c : string) (w : World E) :
  (good_fetch E c w
   /\ exists record company_name status,
        fst (fst (check_promo_url E c w)) = Ok (Some record)
        /\ snd (fst (check_promo_url E c w)) = [LogFound c company_name status])
  \/ (bad_fetch E c w
      /\ fst (fst (check_promo_url E c w)) = Ok None
      /\ (snd (fst (check_promo_url E c w)) = [LogNotValid c]
          \/ (exists sc, snd (fst (check_promo_url E c w)) = [LogHTTP c sc])
          \/ snd (fst (check_promo_url E c w)) = [LogRequestFailed c]))
  \/ (exists e, e <> RequestException
                /\ (exists w1, session_get E (urljoin E base_url c) w
                               = (Raise e, w1))
                /\ fst (fst (check_promo_url E c w)) = Raise e
                /\ snd (fst (check_promo_url E c w)) = []).
Proof.
  destruct (session_get E (urljoin E base_url c) w) as [[r|e] w1] eqn:Hget.
  - destruct (Z.eqb_spec (status_code r) 200) as [Hs|Hs].
    + destruct (is_promo_page (text r)) eqn:Hp.
      * left. split; [exists r, w1; auto|].
        rewrite (check_promo_url_found E c w w1 r Hget Hs Hp).
        eexists _, _, _. split; reflexivity.
      * right. left. split.
        -- right. exists r, w1. auto.
        -- unfold check_promo_url. rewrite Hget, Hs, Hp. simpl. auto.
    + right. left. split.
      * left. left. exists r, w1. auto.
      * unfold check_promo_url. rewrite Hget.
        destruct (Z.eqb_spec (status_code r) 200); [contradiction|].
        simpl. split; [reflexivity|]. right. left. eexists. reflexivity.
  - assert (Hother : e <> RequestException ->
            exists e0, e0 <> RequestException
              /\ (exists w2, (Raise e, w1) = (@Raise Response e0, w2))
              /\ fst (fst (check_promo_url E c w)) = Raise e0
              /\ snd (fst (check_promo_url E c w)) = []).
    { intros Hne. exists e. split; [assumption|].
      split; [exists w1; reflexivity|].
      unfold check_promo_url. rewrite Hget.
      destruct e; try contradiction; split; reflexivity. }
    destruct e; try (right; right; apply Hother; discriminate).
    right. left. split.
    + left. right. exists w1. exact Hget.
    + unfold check_promo_url. rewrite Hget. simpl.
      split; [reflexivity|]. right. right. reflexivity.
Qed.

Lemma good_fetch_not_bad (E : Env) (c : string) (w : World E) :
  good_fetch E c w -> bad_fetch E c w -> False.
Proof.
  intros [r [w1 [Hg [Hs Hp]]]] [[[r' [w' [Hg' Hs']]]|[w' Hg']]|[r' [w' [Hg' [_ Hp']]]]];
    rewrite Hg in Hg'; try discriminate; injection Hg' as <- <-; congruence.
Qed.

(** [check_promo_url] returns a record exactly for HTTP 200 with a marker
    phrase. *)
Lemma check_promo_url_some_iff (E : Env) (c : string) (w : World E) :
  (exists record, fst (fst (check_promo_url E c w)) = Ok (Some record))
  <-> good_fetch E c w.
Proof.
  destruct (check_promo_url_outcome E c w)
    as [[Hg [rec [cn [s [Hr Hl]]]]]|[[Hb [Hr Hl]]|[e [Hne [Hget [Hr Hl]]]]]].
  - split; [auto | intros _; eauto].
  - split.
    + intros [rec Hrec]. rewrite Hr in Hrec. discriminate.
    + intros Hg. destruct (good_fetch_not_bad E c w Hg Hb).
  - split.
    + intros [rec Hrec]. rewrite Hr in Hrec. discriminate.
    + intros [r [w1 [Hg _]]]. destruct Hget as [w' Hget].
      rewrite Hg in Hget. discriminate.
Qed.

(** ** The scan *)

Lemma confirmed_app (l1 l2 : list log_entry) (c : string) :
  confirmed (l1 ++ l2) c <-> confirmed l1 c \/ confirmed l2 c.
Proof.
  unfold confirmed. split.
  - intros [cn [s H]]. apply in_app_or in H. destruct H; eauto.
  - intros [[cn [s H]]|[cn [s H]]]; exists cn, s; apply in_or_app; auto.
Qed.

Lemma rejected_app (l1 l2 : list log_entry) (c : string) :
  rejected (l1 ++ l2) c <-> rejected l1 c \/ rejected l2 c.
Proof.
  unfold rejected. split.
  - intros [H|[[sc H]|H]]; apply in_app_or in H; destruct H; eauto 6.
  - intros [[H|[[sc H]|H]]|[H|[[sc H]|H]]];
      eauto 6 using in_or_app.
Qed.

Lemma confirmed_code (E : Env) (l : list string) (d d' : dict pyval)
      (entries : list log_entry) (c : string) :
  scan_facts E l d d' entries -> confirmed entries c ->
  In c l /\ dict_mem c d = false.
Proof.
  intros F [cn [s H]]. exact (sf_codes _ _ _ _ _ F _ c H eq_refl).
Qed.

Lemma rejected_code (E : Env) (l : list string) (d d' : dict pyval)
      (entries : list log_entry) (c : string) :
  scan_facts E l d d' entries -> rejected entries c ->
  In c l /\ dict_mem c d = false.
Proof.
  intros F [H|[[sc H]|H]]; exact (sf_codes _ _ _ _ _ F _ c H eq_refl).
Qed.

Lemma scan_facts_nil (E : Env) (l : list string) (d : dict pyval) :
  scan_facts E l d d [].
Proof.
  constructor.
  - intros c. split; [auto|]. intros [H|[cn [s []]]]. exact H.
  - reflexivity.
  - intros e c [].
  - intros c [cn [s []]].
  - intros c [[]|[[sc []]|[]]].
  - intros _ c _ [cn [s []]].
Qed.

(** A code already in the store is passed over. *)
Lemma scan_facts_skip (E : Env) (code : string) (l : list string)
      (d d' : dict pyval) (entries : list log_entry) :
  scan_facts E l d d' entries -> scan_facts E (code :: l) d d' entries.
Proof.
  intros F. constructor.
  - exact (sf_store _ _ _ _ _ F).
  - exact (sf_frame _ _ _ _ _ F).
  - intros e c He Hc. destruct (sf_codes _ _ _ _ _ F e c He Hc).
    split; [right|]; assumption.
  - exact (sf_good _ _ _ _ _ F).
  - exact (sf_bad _ _ _ _ _ F).
  - intros Hnd. inversion Hnd. now apply (sf_once _ _ _ _ _ F).
Qed.

(** One fetched code, then the rest of the scan. *)
Lemma scan_facts_step (E : Env) (code : string) (l : list string)
      (d d2 d' : dict pyval) (pre entries : list log_entry) :
  dict_mem code d = false ->
  (forall e c, In e pre -> entry_code e = Some c -> c = code) ->
  (d2 = d /\ ~ confirmed pre code)
  \/ (exists record, d2 = dict_set code record d
                     /\ confirmed pre code /\ ~ rejected pre code) ->
  (confirmed pre code -> exists w, good_fetch E code w) ->
  (rejected pre code -> exists w, bad_fetch E code w) ->
  scan_facts E l d2 d' entries ->
  scan_facts E (code :: l) d d' (pre ++ entries)%list.
Proof.
  intros Hmem Hpre Hd2 Hgood Hbad F.
  assert (Hconf : forall c, confirmed pre c -> c = code).
  { intros c [cn [s H]]. exact (Hpre _ c H eq_refl). }
  assert (Hrej : forall c, rejected pre c -> c = code).
  { intros c [H|[[sc H]|H]]; exact (Hpre _ c H eq_refl). }
  assert (Hmem2 : forall c, dict_mem c d2 = true <->
                            dict_mem c d = true \/ confirmed pre c).
  { intros c. destruct Hd2 as [[-> Hn]|[rec [-> [Hc Hn]]]].
    - split; [auto|]. intros [H|H]; [exact H|].
      rewrite (Hconf c H) in H. contradiction.
    - rewrite dict_mem_set. split.
      + intros H. apply orb_prop in H. destruct H as [H|H]; [|auto].
        apply String.eqb_eq in H. subst c. auto.
      + intros [H|H]; [rewrite H; apply orb_true_r|].
        rewrite (Hconf c H), String.eqb_refl. reflexivity. }
  assert (Hsub : forall c, dict_mem c d2 = false -> dict_mem c d = false).
  { intros c H. destruct (dict_mem c d) eqn:Hd; [|reflexivity].
    assert (Ht : dict_mem c d2 = true) by (apply Hmem2; auto). congruence. }
  constructor.
  - intros c. rewrite (sf_store _ _ _ _ _ F c), Hmem2, confirmed_app. tauto.
  - intros c Hc.
    assert (Hne : c <> code) by (intros ->; congruence).
    rewrite (sf_frame _ _ _ _ _ F c) by (apply Hmem2; auto).
    destruct Hd2 as [[-> _]|[rec [-> _]]]; [reflexivity|].
    now apply dict_get_set_other.
  - intros e c He Hc. apply in_app_or in He. destruct He as [He|He].
    + rewrite (Hpre e c He Hc). split; [left; reflexivity | assumption].
    + destruct (sf_codes _ _ _ _ _ F e c He Hc) as [Hin Hm].
      split; [right; assumption | now apply Hsub].
  - intros c Hc. apply confirmed_app in Hc. destruct Hc as [Hc|Hc].
    + pose proof (Hconf c Hc) as ->. auto.
    + exact (sf_good _ _ _ _ _ F c Hc).
  - intros c Hc. apply rejected_app in Hc. destruct Hc as [Hc|Hc].
    + pose proof (Hrej c Hc) as ->. auto.
    + exact (sf_bad _ _ _ _ _ F c Hc).
  - intros Hnd c Hr Hc. inversion Hnd as [|x l0 Hnotin Hnd']. subst.
    apply rejected_app in Hr. apply confirmed_app in Hc.
    destruct Hr as [Hr|Hr].
    + pose proof (Hrej c Hr) as ->. destruct Hc as [Hc|Hc].
      * destruct Hd2 as [[_ Hn]|[rec [_ [_ Hn]]]]; contradiction.
      * apply Hnotin. exact (proj1 (confirmed_code _ _ _ _ _ _ F Hc)).
    + destruct Hc as [Hc|Hc].
      * pose proof (Hconf c Hc) as ->.
        apply Hnotin. exact (proj1 (rejected_code _ _ _ _ _ _ F Hr)).
      * exact (sf_once _ _ _ _ _ F Hnd' c Hr Hc).
Qed.

(** Membership in a log written out entry by entry. *)
Ltac log_cases H :=
  cbn in H;
  repeat match type of H with
         | _ \/ _ => destruct H as [H|H]
         | False => destruct H
         end;
  try discriminate H.

Ltac no_such_entry :=
  let H := fresh "H" in
  let sc := fresh "sc" in
  first
    [ intros [? [? H]]; log_cases H
    | intros [H|[[sc H]|H]]; log_cases H ].

Ltac only_code :=
  let e := fresh "e" in
  let c := fresh "c" in
  let He := fresh "He" in
  let Hc := fresh "Hc" in
  intros e c He Hc; log_cases He; subst e; cbn in Hc; congruence.

Lemma checked_app (l1 l2 : list log_entry) (c : string) :
  checked (l1 ++ l2) c <-> checked l1 c \/ checked l2 c.
Proof.
  unfold checked. split.
  - intros [i [n H]]. apply in_app_or in H. destruct H; eauto.
  - intros [[i [n H]]|[i [n H]]]; exists i, n; apply in_or_app; auto.
Qed.

Lemma complete_app (l1 l2 : list log_entry) :
  complete l1 -> complete l2 -> complete (l1 ++ l2).
Proof.
  intros H1 H2 c Hc. rewrite confirmed_app, rejected_app.
  apply checked_app in Hc. destruct Hc as [Hc|Hc].
  - destruct (H1 c Hc); auto.
  - destruct (H2 c Hc); auto.
Qed.

Lemma complete_nil : complete [].
Proof. intros c [i [n []]]. Qed.

Lemma covered_skip (code : string) (l : list string) (d : dict pyval)
      (entries : list log_entry) :
  dict_mem code d = true ->
  covered l d entries -> covered (code :: l) d entries.
Proof.
  intros Hmem Hcov c [<-|Hin] Hd; [congruence | now apply Hcov].
Qed.

Lemma covered_step (code : string) (l : list string) (d d2 : dict pyval)
      (pre entries : list log_entry) :
  checked pre code ->
  (forall c, c <> code -> dict_mem c d = false -> dict_mem c d2 = false) ->
  covered l d2 entries ->
  covered (code :: l) d (pre ++ entries)%list.
Proof.
  intros Hpre Hd2 Hcov c Hin Hd. apply checked_app.
  destruct (String.eqb_spec c code) as [->|Hne]; [left; exact Hpre|].
  destruct Hin as [<-|Hin]; [contradiction|].
  right. apply Hcov; [exact Hin | now apply Hd2].
Qed.

Lemma scan_codes_facts (E : Env) (total : nat) (l : list string) :
  forall (i found_count : nat) (st : Finder E) (d : dict pyval),
    results st = PDict d ->
    exists d' entries,
      results (snd (scan_codes E total i l found_count st)) = PDict d'
      /\ log (snd (scan_codes E total i l found_count st))
         = (log st ++ entries)%list
      /\ (forall n, fst (scan_codes E total i l found_count st) = Ok n ->
                    complete entries /\ covered l d entries)
      /\ scan_facts E l d d' entries.
Proof.
  induction l as [|code l IH]; intros i fc st d Hres.
  - exists d, []. simpl. rewrite app_nil_r.
    split; [exact Hres|]. split; [reflexivity|].
    split; [|apply scan_facts_nil].
    intros _ _. split; [apply complete_nil | intros c []].
  - cbn [scan_codes]. rewrite Hres. cbn [py_in].
    destruct (dict_mem code d) eqn:Hmem.
    + destruct (IH (S i) fc st d Hres) as [d' [entries [Hr [Hl [C F]]]]].
      exists d', entries. split; [exact Hr|]. split; [exact Hl|].
      split; [|now apply scan_facts_skip].
      intros n Hn. destruct (C n Hn) as [Cc Cv].
      split; [exact Cc | now apply covered_skip].
    + change (world (write_log E st [LogChecking (S i) total code]))
        with (world st).
      pose proof (check_promo_url_outcome E code (world st)) as Hout.
      destruct (check_promo_url E code (world st)) as [[r logged] w1].
      cbn [fst snd] in Hout.
      destruct Hout as [[Hg [rec [cn [s [-> ->]]]]]
                       |[[Hb [-> Hl]]|[e [Hne [_ [-> ->]]]]]].
      * (* found: the record is stored, the scan goes on *)
        cbn [results write_log set_world set_results]. rewrite Hres.
        cbn [py_setitem].
        set (saved := (S fc mod 5 =? 0)%nat).
        match goal with
        | |- context [scan_codes E total (S i) l (S fc) ?s] =>
            destruct (IH (S i) (S fc) s (dict_set code (PDict rec) d))
              as [d' [entries [Hr [Hlog [C F]]]]];
            [destruct saved; reflexivity|]
        end.
        exists d', (([LogChecking (S i) total code; LogFound code cn s]
                     ++ (if saved then [LogSaved] else [])) ++ entries)%list.
        split; [exact Hr|]. split; [|split].
        -- rewrite Hlog. destruct saved; cbn; rewrite <- !app_assoc; reflexivity.
        -- intros n Hn. destruct (C n Hn) as [Cc Cv]. split.
           ++ apply complete_app; [|exact Cc].
              intros c Hc. left.
              assert (c = code) as ->
                by (destruct Hc as [i' [n' Hc]]; destruct saved; log_cases Hc;
                    congruence).
              exists cn, s. right. left. reflexivity.
           ++ apply covered_step with (d2 := dict_set code (PDict rec) d);
                [| |exact Cv].
              ** exists (S i), total. left. reflexivity.
              ** intros c Hne Hd. rewrite dict_mem_set, Hd.
                 destruct (String.eqb_spec c code); [contradiction|].
                 reflexivity.
        -- apply scan_facts_step with (d2 := dict_set code (PDict rec) d);
             [assumption| | | | |exact F].
           ++ destruct saved; only_code.
           ++ right. exists (PDict rec). split; [reflexivity|]. split.
              ** exists cn, s. right. left. reflexivity.
              ** destruct saved; no_such_entry.
           ++ intros _. exists (world st). exact Hg.
           ++ destruct saved; no_such_entry.
      * (* no promo page: the scan goes on with the store as it was *)
        match goal with
        | |- context [scan_codes E total (S i) l fc ?s] =>
            destruct (IH (S i) fc s d Hres)
              as [d' [entries [Hr [Hlog [C F]]]]]
        end.
        exists d', (([LogChecking (S i) total code] ++ logged) ++ entries)%list.
        split; [exact Hr|]. split; [|split].
        -- rewrite Hlog. cbn. rewrite <- !app_assoc. reflexivity.
        -- intros n Hn. destruct (C n Hn) as [Cc Cv]. split.
           ++ apply complete_app; [|exact Cc].
              intros c Hc. right.
              assert (c = code) as ->
                by (destruct Hc as [i' [n' Hc]];
                    destruct Hl as [ -> | [ [sc -> ] | -> ] ]; log_cases Hc;
                    congruence).
              destruct Hl as [ -> | [ [sc -> ] | -> ] ].
              ** left. right. left. reflexivity.
              ** right. left. exists sc. right. left. reflexivity.
              ** right. right. right. left. reflexivity.
           ++ apply covered_step with (d2 := d); [|auto|exact Cv].
              exists (S i), total. left. reflexivity.
        -- apply scan_facts_step with (d2 := d); [assumption| | | | |exact F].
           ++ destruct Hl as [ -> | [ [sc -> ] | -> ] ]; only_code.
           ++ left. split; [reflexivity|].
              destruct Hl as [ -> | [ [sc -> ] | -> ] ]; no_such_entry.
           ++ intros Hc. exfalso. revert Hc.
              destruct Hl as [ -> | [ [sc -> ] | -> ] ]; no_such_entry.
           ++ intros _. exists (world st). exact Hb.
      * (* an exception leaves the loop *)
        exists d, ([LogChecking (S i) total code] ++ [])%list.
        split; [exact Hres|]. split; [|split].
        -- cbn. rewrite <- !app_assoc. reflexivity.
        -- intros n Hn. discriminate Hn.
        -- rewrite <- (app_nil_r ([LogChecking (S i) total code] ++ [])).
           apply scan_facts_step with (d2 := d);
             [assumption| | | | |apply scan_facts_nil].
           ++ only_code.
           ++ left. split; [reflexivity|]. no_such_entry.
           ++ intros Hc. exfalso. revert Hc. no_such_entry.
           ++ intros Hc. exfalso. revert Hc. no_such_entry.
Qed.

(** Log entries that are not about a code change none of the facts. *)
Lemma scan_facts_frame_log (E : Env) (l : list string) (d d' : dict pyval)
      (pre entries post : list log_entry) :
  (forall e, In e pre -> entry_code e = None) ->
  (forall e, In e post -> entry_code e = None) ->
  scan_facts E l d d' entries ->
  scan_facts E l d d' (pre ++ entries ++ post)%list.
Proof.
  intros Hpre Hpost F.
  assert (Hc : forall c, confirmed (pre ++ entries ++ post) c
                         <-> confirmed entries c).
  { intros c. rewrite !confirmed_app. split; [|auto].
    intros [[cn [s H]]|[H|[cn [s H]]]]; [|exact H|].
    - apply Hpre in H. discriminate.
    - apply Hpost in H. discriminate. }
  assert (Hr : forall c, rejected (pre ++ entries ++ post) c
                         <-> rejected entries c).
  { intros c. rewrite !rejected_app. split; [|auto].
    intros [[H|[[sc H]|H]]|[H|[H|[[sc H]|H]]]]; try exact H;
      try (apply Hpre in H; discriminate);
      try (apply Hpost in H; discriminate). }
  constructor.
  - intros c. rewrite Hc. exact (sf_store _ _ _ _ _ F c).
  - exact (sf_frame _ _ _ _ _ F).
  - intros e c He Hcode. apply in_app_or in He. destruct He as [He|He].
    + rewrite (Hpre e He) in Hcode. discriminate.
    + apply in_app_or in He. destruct He as [He|He].
      * exact (sf_codes _ _ _ _ _ F e c He Hcode).
      * rewrite (Hpost e He) in Hcode. discriminate.
  - intros c H. apply Hc in H. exact (sf_good _ _ _ _ _ F c H).
  - intros c H. apply Hr in H. exact (sf_bad _ _ _ _ _ F c H).
  - intros Hnd c H1 H2. apply Hr in H1. apply Hc in H2.
    exact (sf_once _ _ _ _ _ F Hnd c H1 H2).
Qed.

Lemma select_codes_entries (max_codes : option Z) (start_from : option string) :
  forall e, In e (snd (select_codes max_codes start_from)) ->
            entry_code e = None.
Proof.
  unfold select_codes. intros e.
  destruct start_from as [s|]; [|intros []].
  destruct (start_truthy (Some s)); [|intros []].
  destruct (index_of s generate_promo_codes); intros [<-|[]]; reflexivity.
Qed.





(** The store and the log after [search_promos]. *)
Lemma complete_frame_log (pre entries post : list log_entry) :
  (forall e, In e pre -> entry_code e = None) ->
  (forall e, In e post -> entry_code e = None) ->
  complete entries -> complete (pre ++ entries ++ post)%list.
Proof.
  intros Hpre Hpost C c Hc.
  rewrite !confirmed_app, !rejected_app.
  rewrite !checked_app in Hc. destruct Hc as [[i [n H]]|[Hc|[i [n H]]]].
  - apply Hpre in H. discriminate.
  - destruct (C c Hc); auto.
  - apply Hpost in H. discriminate.
Qed.

Lemma covered_frame_log (l : list string) (d : dict pyval)
      (pre entries post : list log_entry) :
  covered l d entries -> covered l d (pre ++ entries ++ post)%list.
Proof.
  intros Hcov c Hin Hd. rewrite !checked_app. right. left.
  now apply Hcov.
Qed.

Lemma search_promos_facts (E : Env) (max_codes : option Z)
      (start_from : option string) (st : Finder E) (d : dict pyval) :
  results st = PDict d ->
  exists d' entries,
    results (snd (search_promos E max_codes start_from st)) = PDict d'
    /\ log (snd (search_promos E max_codes start_from st))
       = (log st ++ entries)%list
    /\ (fst (search_promos E max_codes start_from st) = Ok tt ->
        complete entries
        /\ covered (fst (select_codes max_codes start_from)) d entries)
    /\ scan_facts E (fst (select_codes max_codes start_from)) d d' entries.
Proof.
  intros Hres. unfold search_promos.
  pose proof (select_codes_entries max_codes start_from) as Hsel.
  destruct (select_codes max_codes start_from) as [l chosen].
  cbn [fst snd] in *.
  set (st1 := write_log E st (chosen ++ [LogSearching (List.length l)])).
  destruct (scan_codes_facts E (List.length l) l 0 0 st1 d Hres)
    as [d' [entries [Hr [Hlog [C F]]]]].
  assert (Hpre : forall e, In e (chosen ++ [LogSearching (List.length l)]) ->
                           entry_code e = None).
  { intros e He. apply in_app_or in He.
    destruct He as [He|[<-|[]]]; [now apply Hsel | reflexivity]. }
  destruct (scan_codes E (List.length l) 0 l 0 st1) as [[n|exc] st2];
    cbn [fst snd] in *.
  - assert (Hpost : forall e, In e [LogSaved; LogComplete n] ->
                              entry_code e = None)
      by (intros e [<-|[<-|[]]]; reflexivity).
    exists d', ((chosen ++ [LogSearching (List.length l)])
                ++ entries ++ [LogSaved; LogComplete n])%list.
    split; [exact Hr|]. split; [|split].
    + cbn. rewrite Hlog. cbn. rewrite <- !app_assoc. reflexivity.
    + intros _. destruct (C n eq_refl) as [Cc Cv]. split.
      * now apply complete_frame_log.
      * now apply covered_frame_log.
    + apply scan_facts_frame_log; [exact Hpre|exact Hpost|exact F].
  - exists d', ((chosen ++ [LogSearching (List.length l)])
                ++ entries ++ [])%list.
    split; [exact Hr|]. split; [|split].
    + rewrite Hlog. cbn. rewrite app_nil_r, <- !app_assoc. reflexivity.
    + intros H. discriminate H.
    + apply scan_facts_frame_log; [exact Hpre| |exact F]. intros e [].
Qed.

Lemma session_get_static (E : Env) (url : string) (w w' : World E)
      (o : result Response) (w1 : World E) :
  static_site E ->
  session_get E url w = (o, w1) ->
  exists w2, session_get E url w' = (o, w2).
Proof.
  intros Hs Hget. specialize (Hs url w w'). rewrite Hget in Hs.
  destruct (session_get E url w') as [o' w2]. cbn [fst] in Hs. subst o'.
  exists w2. reflexivity.
Qed.


Lemma bad_fetch_static (E : Env) (c : string) (w w' : World E) :
  static_site E -> bad_fetch E c w -> bad_fetch E c w'.
Proof.
  intros Hs [[[r [w1 [Hget H]]]|[w1 Hget]]|[r [w1 [Hget H]]]];
    destruct (session_get_static E _ w w' _ _ Hs Hget) as [w2 Hget'].
  - left. left. exists r, w2. auto.
  - left. right. exists w2. exact Hget'.
  - right. exists r, w2. auto.
Qed.


(** C7. Every code in the store when [search_promos] starts keeps its record
    unchanged, whether the scan returns or raises, and the scan writes no log
    entry about it: the code is passed over before any fetch. *)
Theorem existing_records_unchanged (E : Env) (max_codes : option Z)
        (start_from : option string) (st : Finder E) (d : dict pyval) :
  results st = PDict d ->
  exists d' entries,
    results (snd (search_promos E max_codes start_from st)) = PDict d'
    /\ log (snd (search_promos E max_codes start_from st))
       = (log st ++ entries)%list
    /\ forall c,
         dict_mem c d = true ->
         dict_get c d' = dict_get c d
         /\ ~ checked entries c
         /\ forall e, In e entries -> entry_code e <> Some c.
Proof.
  intros Hres.
  destruct (search_promos_facts E max_codes start_from st d Hres)
    as [d' [entries [Hr [Hlog [_ F]]]]].
  exists d', entries. split; [exact Hr|]. split; [exact Hlog|].
  intros c Hc. split; [exact (sf_frame _ _ _ _ _ F c Hc)|].
  assert (Hnone : forall e, In e entries -> entry_code e <> Some c).
  { intros e He Hcode.
    destruct (sf_codes _ _ _ _ _ F e c He Hcode) as [_ Hd]. congruence. }
  split; [|exact Hnone].
  intros [i [n Hin]]. exact (Hnone _ Hin eq_refl).
Qed.

(** C9. When the fetch of a code returns a status other than 200, or raises
    a network error, [check_promo_url] returns [None] and raises nothing;
    the loop of the scan leaves the store and the files as they are and
    continues with the next code. *)
Theorem failed_fetch_is_passed (E : Env) (code : string) (total i : nat)
        (l : list string) (found_count : nat) (st : Finder E) :
  py_in code (results st) = Ok false ->
  failed_fetch E code (world st) ->
  fst (fst (check_promo_url E code (world st))) = Ok None
  /\ exists st',
       scan_codes E total i (code :: l) found_count st
       = scan_codes E total (S i) l found_count st'
       /\ results st' = results st
       /\ files st' = files st.
Proof.
  intros Hin Hfail.
  assert (Hnone : fst (fst (check_promo_url E code (world st))) = Ok None).
  { apply check_promo_url_none.
    destruct Hfail as [[r [w1 [Hg Hs]]]|[w1 Hg]]; [left|right]; eauto 6. }
  split; [exact Hnone|].
  cbn [scan_codes]. rewrite Hin.
  change (world (write_log E st [LogChecking (S i) total code]))
    with (world st).
  destruct (check_promo_url E code (world st)) as [[r logged] w1].
  cbn [fst] in Hnone. subst r.
  eexists. split; [reflexivity|]. split; reflexivity.
Qed.


(** The scan of [site_scan] from [old_store]: AS2305 keeps its old record,
    AS2307 is added, and CS2344, which answers 200 without a marker phrase,
    is not. *)
(** The sites of the concrete environment answer the same at any time. *)
Example fixture_site_static (site : Fixture.Site) :
  static_site (Fixture.env site).
Proof. intros url w w'. reflexivity. Qed.

Example scan_run :
  fst (search_promos (Fixture.env site_scan) None None
                     (Fixture.start site_scan old_store)) = Ok tt
  /\ results (snd (search_promos (Fixture.env site_scan) None None
                                 (Fixture.start site_scan old_store)))
     = PDict (old_store ++
              [ ("AS2307",
                 PDict [ ("promo_code", PStr "AS2307");
                         ("url", PStr "https://www.alaskaair.com/promo/AS2307");
                         ("company_name", PStr "Acme Corp");
                         ("found_date", PStr "2026-11-04T12:00:00");
                         ("status", PStr "active") ]) ])%list.
Proof. split; vm_compute; reflexivity. Qed.

Lemma existing_records_unchanged_witness :
  exists d' entries,
    results (snd (search_promos (Fixture.env site_scan) None None
                                (Fixture.start site_scan old_store)))
    = PDict d'
    /\ log (snd (search_promos (Fixture.env site_scan) None None
                               (Fixture.start site_scan old_store)))
       = (log (Fixture.start site_scan old_store) ++ entries)%list
    /\ forall c,
         dict_mem c old_store = true ->
         dict_get c d' = dict_get c old_store
         /\ ~ checked entries c
         /\ forall e, In e entries -> entry_code e <> Some c.
Proof.
  apply (existing_records_unchanged (Fixture.env site_scan) None None
           (Fixture.start site_scan old_store) old_store).
  reflexivity.
Defined.

Lemma failed_fetch_is_passed_witness :
  fst (fst (check_promo_url (Fixture.env site_acme) "AS2399"
              (world (Fixture.start site_acme []))))
  = Ok None
  /\ exists st',
       scan_codes (Fixture.env site_acme) 1 0 ["AS2399"] 0
                  (Fixture.start site_acme [])
       = scan_codes (Fixture.env site_acme) 1 1 [] 0 st'
       /\ results st' = results (Fixture.start site_acme [])
       /\ files st' = files (Fixture.start site_acme []).
Proof.
  apply (failed_fetch_is_passed (Fixture.env site_acme) "AS2399" 1 0 [] 0
           (Fixture.start site_acme [])).
  - reflexivity.
  - left. exists Fixture.not_found, 1%nat. split.
    + reflexivity.
    + simpl. discriminate.
Defined.

(** The same with a network error in place of the 404. *)
Example timeout_is_passed :
  failed_fetch (Fixture.env site_timeout) "AS2399"
               (world (Fixture.start site_timeout []))
  /\ check_promo_url (Fixture.env site_timeout) "AS2399"
                     (world (Fixture.start site_timeout []))
     = (Ok None, [LogRequestFailed "AS2399"], 1%nat).
Proof.
  split.
  - right. exists 1%nat. reflexivity.
  - reflexivity.
Qed.

(** ** [extract_company_name] *)

Section ExtractCompanyName.
Variable E : Env.



End ExtractCompanyName.



(** ** JSON round trip *)



Lemma string_length_app (a b : string) :
  String.length (a ++ b) = (String.length a + String.length b)%nat.
Proof. induction a as [|x a IH]; simpl; [reflexivity | now rewrite IH]. Qed.
















Section RoundTrip.
(** The reader of the elements, which reads back every stored element. *)
Variable scan_once : string -> option (pyval * string).



End RoundTrip.










(** The same round trip, run. *)
Example sample_store_round_trip :
  Json.loads (Json.dumps (PDict sample_store)) = Some (PDict sample_store).
Proof. vm_compute. reflexivity. Qed.

(** * Further properties *)

(** ** An induction principle for the loop of the scan *)

Section ScanInduction.
Variable E : Env.
Variable total : nat.
Variable P : nat -> list string -> nat -> Finder E ->
             result nat * Finder E -> Prop.

Hypothesis P_done : forall i fc st, P i [] fc st (Ok fc, st).

Hypothesis P_not_a_container : forall i code l fc st e,
  py_in code (results st) = Raise e ->
  P i (code :: l) fc st (Raise e, st).

Hypothesis P_skip : forall i code l fc st out,
  py_in code (results st) = Ok true ->
  P (S i) l fc st out ->
  P i (code :: l) fc st out.

Hypothesis P_raise : forall i code l fc st e w1,
  py_in code (results st) = Ok false ->
  check_promo_url E code (world st) = (Raise e, [], w1) ->
  e <> RequestException ->
  P i (code :: l) fc st (Raise e, checked_state E st i total code [] w1).

Hypothesis P_rejected : forall i code l fc st logged w1 out,
  py_in code (results st) = Ok false ->
  check_promo_url E code (world st) = (Ok None, logged, w1) ->
  bad_fetch E code (world st) ->
  logged = [LogNotValid code]
  \/ (exists sc, logged = [LogHTTP code sc])
  \/ logged = [LogRequestFailed code] ->
  P (S i) l fc (slept_state E (checked_state E st i total code logged w1)) out ->
  P i (code :: l) fc st out.

Hypothesis P_found : forall i code l fc st record cn s w1 results' out,
  py_in code (results st) = Ok false ->
  check_promo_url E code (world st)
  = (Ok (Some record), [LogFound code cn s], w1) ->
  good_fetch E code (world st) ->
  py_setitem (results st) code (PDict record) = Ok results' ->
  P (S i) l (S fc)
    (slept_state E
       (stored_state E
          (checked_state E st i total code [LogFound code cn s] w1)
          results' fc))
    out ->
  P i (code :: l) fc st out.

Hypothesis P_not_a_mapping : forall i code l fc st record cn s w1 e,
  py_in code (results st) = Ok false ->
  check_promo_url E code (world st)
  = (Ok (Some record), [LogFound code cn s], w1) ->
  good_fetch E code (world st) ->
  py_setitem (results st) code (PDict record) = Raise e ->
  P i (code :: l) fc st
    (Raise e, checked_state E st i total code [LogFound code cn s] w1).

Lemma scan_codes_cases (l : list string) :
  forall i fc st, P i l fc st (scan_codes E total i l fc st).
Proof.
  induction l as [|code l IH]; intros i fc st; [apply P_done|].
  cbn [scan_codes].
  destruct (py_in code (results st)) as [[|]|e] eqn:Hin.
  - apply P_skip; [exact Hin | apply IH].
  - change (world (write_log E st [LogChecking (S i) total code]))
      with (world st).
    pose proof (check_promo_url_outcome E code (world st)) as Hout.
    destruct (check_promo_url E code (world st)) as [[r logged] w1] eqn:Hc.
    cbn [fst snd] in Hout.
    destruct Hout as [[Hg [rec [cn [s [-> ->]]]]]
                     |[[Hb [-> Hl]]|[e [Hne [_ [-> ->]]]]]].
    + change (results (write_log E
                (set_world E (write_log E st [LogChecking (S i) total code]) w1)
                [LogFound code cn s])) with (results st).
      destruct (py_setitem (results st) code (PDict rec)) as [r'|e] eqn:Hset.
      * eapply P_found; eauto.
      * eapply P_not_a_mapping; eauto.
    + eapply P_rejected; eauto.
    + eapply P_raise; eauto.
  - apply P_not_a_container. exact Hin.
Qed.

End ScanInduction.

(** ** Queries on the store *)





Lemma ltb_trans (a b c : string) :
  String.ltb a b = true -> String.ltb b c = true -> String.ltb a c = true.
Proof.
  unfold String.ltb. intros H1 H2.
  destruct (String.compare a b) eqn:E1; try discriminate.
  destruct (String.compare b c) eqn:E2; try discriminate.
  apply OrderedTypeEx.String_as_OT.cmp_lt in E1, E2.
  pose proof (OrderedTypeEx.String_as_OT.lt_trans _ _ _ E1 E2) as H.
  apply OrderedTypeEx.String_as_OT.cmp_lt in H.
  unfold OrderedTypeEx.String_as_OT.cmp in H. rewrite H. reflexivity.
Qed.

Lemma ltb_connected (a b : string) :
  String.ltb a b = false -> a <> b -> String.ltb b a = true.
Proof.
  unfold String.ltb. intros H Hne.
  rewrite String.compare_antisym.
  destruct (String.compare a b) eqn:E; try discriminate.
  - apply String.compare_eq_iff in E. contradiction.
  - reflexivity.
Qed.

Lemma insert_item_perm (kv : string * pyval) (l : list (string * pyval)) :
  Permutation (insert_item kv l) (kv :: l).
Proof.
  induction l as [|y l IH]; cbn [insert_item]; [apply Permutation_refl|].
  destruct (String.ltb (fst kv) (fst y)); [apply Permutation_refl|].
  apply perm_trans with (y :: kv :: l); [|apply perm_swap].
  apply perm_skip. exact IH.
Qed.

Lemma insert_item_sorted (kv : string * pyval) (l : list (string * pyval)) :
  StronglySorted code_lt l ->
  ~ In (fst kv) (keys l) ->
  StronglySorted code_lt (insert_item kv l).
Proof.
  induction 1 as [|y l Hs IH Hall]; intros Hnew; cbn [insert_item].
  - constructor; constructor.
  - destruct (String.ltb (fst kv) (fst y)) eqn:Hlt.
    + constructor; [constructor; assumption|].
      constructor; [exact Hlt|].
      eapply Forall_impl; [|exact Hall].
      intros z Hz. unfold code_lt in *. eapply ltb_trans; eassumption.
    + constructor.
      * apply IH. intros Hin. apply Hnew. right. exact Hin.
      * eapply Permutation_Forall;
          [apply Permutation_sym, insert_item_perm|].
        constructor; [|exact Hall].
        apply ltb_connected; [exact Hlt|].
        intros Heq. apply Hnew. left. symmetry. exact Heq.
Qed.

Lemma sort_loop_spec (d : list (string * pyval)) :
  forall acc,
    Permutation (fold_left (fun acc kv => insert_item kv acc) d acc)
                (d ++ acc)
    /\ (StronglySorted code_lt acc ->
        NoDup (keys d ++ keys acc) ->
        StronglySorted code_lt
          (fold_left (fun acc kv => insert_item kv acc) d acc)).
Proof.
  induction d as [|kv d IH]; intros acc; cbn [fold_left app].
  - split; [apply Permutation_refl | intros H _; exact H].
  - destruct (IH (insert_item kv acc)) as [Hp Hs]. split.
    + eapply perm_trans; [exact Hp|].
      eapply perm_trans;
        [apply Permutation_app_head, insert_item_perm|].
      apply Permutation_sym, Permutation_middle.
    + intros Hacc Hnd. cbn [keys map] in Hnd.
      apply NoDup_cons_iff in Hnd. destruct Hnd as [Hnew Hnd].
      apply Hs.
      * apply insert_item_sorted; [exact Hacc|].
        intros Hin. apply Hnew. apply in_or_app. right. exact Hin.
      * unfold keys in *.
        eapply Permutation_NoDup;
          [|exact (proj2 (NoDup_cons_iff (fst kv) _) (conj Hnew Hnd))].
        eapply perm_trans; [apply Permutation_middle|].
        apply Permutation_app_head.
        change (fst kv :: map fst acc) with (map fst (kv :: acc)).
        apply Permutation_map, Permutation_sym, insert_item_perm.
Qed.

Lemma sorted_items_spec (d : list (string * pyval)) :
  Permutation (sorted_items d) d
  /\ (NoDup (keys d) -> StronglySorted code_lt (sorted_items d)).
Proof.
  destruct (sort_loop_spec d []) as [Hp Hs]. rewrite app_nil_r in Hp.
  split; [exact Hp|]. intros Hnd. apply Hs; [constructor|].
  cbn. rewrite app_nil_r. exact Hnd.
Qed.

Lemma take_length (n : nat) (s : string) :
  String.length (PyStr.take n s) <= n.
Proof.
  revert s. induction n as [|n IH]; intros [|c t]; cbn; try lia.
  specialize (IH t). lia.
Qed.

Lemma repeat_char_length (c : ascii) (n : nat) :
  String.length (PyStr.repeat_char c n) = n.
Proof. induction n as [|n IH]; cbn; [reflexivity | rewrite IH; reflexivity]. Qed.

Lemma ljust_length (w : nat) (s : string) :
  String.length s <= w -> String.length (ljust w s) = w.
Proof.
  intros H. unfold ljust. rewrite string_length_app, repeat_char_length. lia.
Qed.

Lemma promo_row_listable (code : string) (data : pyval) :
  listable data = true ->
  exists row, promo_row code data = Ok row /\ shows (code, data) row.
Proof.
  destruct data as [| | | | | |r]; try discriminate.
  unfold listable. intros Hl.
  unfold promo_row, py_get, shows. cbn [fst snd].
  destruct (dict_get "company_name" r) as [[| | | |name| |]|] eqn:Hc;
    try discriminate; cbn [bind py_slice_to].
  - destruct (dict_get "status" r) as [status|] eqn:Hs;
      destruct (dict_get "url" r) as [url|] eqn:Hu; cbn [bind];
      eexists; (split; [reflexivity|]);
      eexists r, _, _, _; rewrite ?Hc, ?Hs, ?Hu;
      (split; [reflexivity|]); (split; [reflexivity|]);
      (split; [reflexivity|]);
      (split; [apply ljust_length;
               pose proof (take_length 33 name); lia|]);
      (split; [|reflexivity]).
    + destruct status as [| | | |s| |]; cbn [is_str];
        try (split; [discriminate | intros H; discriminate]).
      destruct (String.eqb_spec s "expired") as [->|Hne];
        split; congruence.
    + destruct status as [| | | |s| |]; cbn [is_str];
        try (split; [discriminate | intros H; discriminate]).
      destruct (String.eqb_spec s "expired") as [->|Hne];
        split; congruence.
    + cbn. split; discriminate.
    + cbn. split; discriminate.
  - destruct (dict_get "status" r) as [status|] eqn:Hs;
      destruct (dict_get "url" r) as [url|] eqn:Hu; cbn [bind];
      eexists; (split; [reflexivity|]);
      eexists r, _, _, _; rewrite ?Hc, ?Hs, ?Hu;
      (split; [reflexivity|]); (split; [reflexivity|]);
      (split; [reflexivity|]);
      (split; [reflexivity|]);
      (split; [|reflexivity]).
    + destruct status as [| | | |s| |]; cbn [is_str];
        try (split; [discriminate | intros H; discriminate]).
      destruct (String.eqb_spec s "expired") as [->|Hne];
        split; congruence.
    + destruct status as [| | | |s| |]; cbn [is_str];
        try (split; [discriminate | intros H; discriminate]).
      destruct (String.eqb_spec s "expired") as [->|Hne];
        split; congruence.
    + cbn. split; discriminate.
    + cbn. split; discriminate.
Qed.

Lemma promo_row_not_listable (code : string) (data : pyval) :
  plain_record data = true ->
  listable data = false ->
  promo_row code data = Raise TypeError.
Proof.
  destruct data as [| | | | | |r]; try discriminate.
  unfold plain_record, listable, promo_row, py_get.
  destruct (dict_get "company_name" r) as [[| | | |name|l|d]|];
    try discriminate; intros _ _; cbn [bind py_slice_to]; try reflexivity.
  destruct (dict_get "status" r), (dict_get "url" r); reflexivity.
Qed.


Lemma print_rows_not_listable (items : list (string * pyval)) :
  forallb plain_record (map snd items) = true ->
  forallb listable (map snd items) = false ->
  forall printed,
  exists rows,
    print_rows items printed = ((printed ++ rows)%list, Raise TypeError)
    /\ List.length rows < List.length items.
Proof.
  induction items as [|[code data] items IH]; intros Hrec Hall printed;
    [discriminate|].
  cbn [map snd forallb] in Hrec, Hall. apply andb_true_iff in Hrec.
  destruct Hrec as [Hd Hrec]. cbn [print_rows].
  destruct (listable data) eqn:Hl.
  - destruct (promo_row_listable code data Hl) as [row [Hrow _]].
    destruct (IH Hrec Hall (printed ++ [row])%list) as [rows [Hp Hlen]].
    exists (row :: rows). rewrite Hrow, Hp, <- app_assoc.
    split; [reflexivity | cbn; lia].
  - rewrite (promo_row_not_listable code data Hd Hl).
    exists []. rewrite app_nil_r. split; [reflexivity | cbn; lia].
Qed.

Lemma forallb_perm {A : Type} (f : A -> bool) (l l' : list A) :
  Permutation l l' -> forallb f l = forallb f l'.
Proof.
  induction 1 as [|x l l' _ IH|x y l|l l' l'' _ IH1 _ IH2]; cbn.
  - reflexivity.
  - rewrite IH. reflexivity.
  - destruct (f x), (f y); reflexivity.
  - congruence.
Qed.

Lemma list_all_promos_dict (d : dict pyval) :
  d <> [] ->
  list_all_promos (PDict d)
  = print_rows (sorted_items d)
               [TitleLine (List.length d); HeaderLine; RuleLine].
Proof. destruct d; [congruence | reflexivity]. Qed.



Lemma list_all_promos_not_listable (d : dict pyval) :
  forallb plain_record (map snd d) = true ->
  forallb listable (map snd d) = false ->
  exists rows,
    list_all_promos (PDict d)
    = (TitleLine (List.length d) :: HeaderLine :: RuleLine :: rows,
       Raise TypeError)
    /\ List.length rows < List.length d.
Proof.
  intros Hrec Hall.
  destruct (sorted_items_spec d) as [Hperm _].
  assert (Hrec' : forallb plain_record (map snd (sorted_items d)) = true).
  { rewrite (forallb_perm plain_record _ (map snd d)); [exact Hrec|].
    apply Permutation_map. exact Hperm. }
  assert (Hall' : forallb listable (map snd (sorted_items d)) = false).
  { rewrite (forallb_perm listable _ (map snd d)); [exact Hall|].
    apply Permutation_map. exact Hperm. }
  destruct (print_rows_not_listable (sorted_items d) Hrec' Hall'
              [TitleLine (List.length d); HeaderLine; RuleLine])
    as [rows [Hp Hlen]].
  exists rows. split.
  - rewrite list_all_promos_dict; [exact Hp|].
    intros ->. discriminate.
  - rewrite <- (Permutation_length Hperm). exact Hlen.
Qed.

Lemma forallb_false_In {A : Type} (f : A -> bool) (l : list A) (x : A) :
  In x l -> f x = false -> forallb f l = false.
Proof.
  intros Hin Hf. destruct (forallb f l) eqn:Hall; [|reflexivity].
  rewrite forallb_forall in Hall. rewrite (Hall x Hin) in Hf. discriminate.
Qed.

(** X3.  When every record of the store is a dict whose [company_name] is
    no dict, and one of them has a [company_name] that is present but no
    string ([None] above all), [list_all_promos] raises [TypeError]: it
    has printed the title, the column titles, the rule and the rows of
    fewer records than the store holds. *)
Theorem list_all_promos_unprintable (d : dict pyval) (code : string)
        (data : pyval) :
  forallb plain_record (map snd d) = true ->
  In (code, data) d ->
  listable data = false ->
  exists rows,
    list_all_promos (PDict d)
    = (TitleLine (List.length d) :: HeaderLine :: RuleLine :: rows,
       Raise TypeError)
    /\ List.length rows < List.length d.
Proof.
  intros Hrec Hin Hl. apply list_all_promos_not_listable; [exact Hrec|].
  apply (forallb_false_In listable _ data); [|exact Hl].
  apply (in_map snd) in Hin. exact Hin.
Qed.

Lemma list_all_promos_unprintable_witness :
  exists rows,
    list_all_promos (PDict sample_store)
    = (TitleLine 2 :: HeaderLine :: RuleLine :: rows, Raise TypeError)
    /\ List.length rows < 2.
Proof.
  apply (list_all_promos_unprintable sample_store "CS2344"
           (PDict [ ("promo_code", PStr "CS2344");
                    ("url", PStr "https://www.alaskaair.com/promo/CS2344");
                    ("company_name", PNone);
                    ("found_date", PStr "2026-11-04T12:00:01");
                    ("status", PStr "active") ])).
  - vm_compute. reflexivity.
  - right. left. reflexivity.
  - reflexivity.
Defined.

Lemma plain_record_set (k : string) (v : pyval) (d : dict pyval) :
  plain_record v = true ->
  forallb plain_record (map snd d) = true ->
  forallb plain_record (map snd (dict_set k v d)) = true.
Proof.
  intros Hplain.
  induction d as [|[k' v'] d IH]; intros H; cbn [dict_set].
  - cbn. rewrite Hplain. reflexivity.
  - cbn [map snd forallb] in H. apply andb_true_iff in H.
    destruct H as [Hv Hd].
    destruct (String.eqb k k'); cbn [map snd forallb].
    + rewrite Hplain. exact Hd.
    + rewrite Hv. apply IH. exact Hd.
Qed.

Lemma dict_get_In {V : Type} (k : string) (v : V) (d : dict V) :
  dict_get k d = Some v -> In v (map snd d).
Proof.
  induction d as [|[k' v'] d IH]; cbn; [discriminate|].
  destruct (String.eqb k k'); intros H.
  - left. congruence.
  - right. apply IH. exact H.
Qed.

(** X4.  A genuine promo page on which [extract_company_name] finds no
    organization is recorded by [check_promo_url] with [company_name]
    [None]; once [search_promos] has stored that record under its code,
    [list_all_promos] raises [TypeError], whatever other records of that
    kind the store holds. *)
Theorem unnamed_promo_breaks_listing (E : Env) (promo_code : string)
        (w w1 : World E) (r : Response) :
  session_get E (urljoin E base_url promo_code) w = (Ok r, w1) ->
  status_code r = 200%Z ->
  is_promo_page (text r) = true ->
  extract_company_name E (text r) = PNone ->
  exists record,
    fst (fst (check_promo_url E promo_code w)) = Ok (Some record)
    /\ dict_get "company_name" record = Some PNone
    /\ forall d results',
         forallb plain_record (map snd d) = true ->
         py_setitem (PDict d) promo_code (PDict record) = Ok results' ->
         snd (list_all_promos results') = Raise TypeError.
Proof.
  intros Hget Hs Hp Hname.
  rewrite (check_promo_url_found E promo_code w w1 r Hget Hs Hp).
  cbn [fst snd]. eexists. split; [reflexivity|].
  rewrite make_record_company_name, Hname. split; [reflexivity|].
  intros d results' Hrec Hset. cbn [py_setitem] in Hset.
  injection Hset as <-.
  match goal with
  | |- context [dict_set promo_code (PDict ?rec) d] => set (record := rec)
  end.
  destruct (list_all_promos_not_listable
              (dict_set promo_code (PDict record) d)) as [rows [Heq _]].
  - apply plain_record_set; [|exact Hrec].
    unfold plain_record, record.
    rewrite make_record_company_name. reflexivity.
  - apply (forallb_false_In listable _ (PDict record)).
    + apply (dict_get_In promo_code). apply dict_get_set_same.
    + unfold listable, record.
      rewrite make_record_company_name. reflexivity.
  - rewrite Heq. reflexivity.
Qed.

Lemma unnamed_promo_breaks_listing_witness :
  exists record,
    fst (fst (check_promo_url (Fixture.env site_unnamed) "AS2301" O))
    = Ok (Some record)
    /\ dict_get "company_name" record = Some PNone
    /\ forall d results',
         forallb plain_record (map snd d) = true ->
         py_setitem (PDict d) "AS2301" (PDict record) = Ok results' ->
         snd (list_all_promos results') = Raise TypeError.
Proof.
  apply (unnamed_promo_breaks_listing (Fixture.env site_unnamed) "AS2301"
           O 1
           (ok_response (Fixture.page_text "Join Mileage Plan today" []))).
  - reflexivity.
  - reflexivity.
  - vm_compute. reflexivity.
  - vm_compute. reflexivity.
Defined.

(** ** The record of a promo page *)

Lemma end_date_loop_status (E : Env) (l : list (option string)) :
  forall (status : string) (info : option string) (w : World E),
    (status = "active" \/ status = "expired") ->
    (info_truthy info = true -> status = "expired") ->
    (fst (fst (end_date_loop E l status info w)) = "active"
     \/ fst (fst (end_date_loop E l status info w)) = "expired")
    /\ (info_truthy (snd (fst (end_date_loop E l status info w))) = true ->
        fst (fst (end_date_loop E l status info w)) = "expired").
Proof.
  induction l as [|script l IH]; intros status info w Hs Hi;
    cbn [end_date_loop].
  - split; assumption.
  - destruct (script_end_datetime E script) as [[dt|]|e].
    + destruct (now_astimezone E w) as [now w1].
      destruct (DateTime.lt dt now) as [[|]|e].
      * apply IH; [right; reflexivity | reflexivity].
      * apply IH; assumption.
      * split; assumption.
    + apply IH; assumption.
    + destruct e; try (split; assumption); apply IH; assumption.
Qed.

Lemma expiration_status (E : Env) (body : string) (w : World E) :
  (fst (fst (expiration E body w)) = "active"
   \/ fst (fst (expiration E body w)) = "expired")
  /\ (info_truthy (snd (fst (expiration E body w))) = true ->
      fst (fst (expiration E body w)) = "expired").
Proof.
  unfold expiration.
  destruct (has_expiration_phrase body);
    destruct (BeautifulSoup E body) as [soup|]; cbn [fst snd].
  - apply end_date_loop_status; [right; reflexivity | reflexivity].
  - split; [right; reflexivity | reflexivity].
  - apply end_date_loop_status; [left; reflexivity | discriminate].
  - split; [left; reflexivity | discriminate].
Qed.

(** X5.  The record [check_promo_url] returns for a code has the fields
    [promo_code] (that code), [url] (the joined URL), [company_name] (what
    [extract_company_name] gave for the page), [found_date] and [status],
    in this order; [status] is "active" or "expired".  A sixth field
    [expiration_date] follows only in an expired record, and then holds a
    non-empty string: an active record never has one. *)
Theorem check_promo_url_record (E : Env) (promo_code : string)
        (w : World E) (record : dict pyval) :
  fst (fst (check_promo_url E promo_code w)) = Ok (Some record) ->
  exists (r : Response) (w1 : World E) (found_date status : string),
    session_get E (urljoin E base_url promo_code) w = (Ok r, w1)
    /\ (status = "active" \/ status = "expired")
    /\ (record
        = [ ("promo_code", PStr promo_code);
            ("url", PStr (urljoin E base_url promo_code));
            ("company_name", extract_company_name E (text r));
            ("found_date", PStr found_date);
            ("status", PStr status) ]
        \/ exists d,
             d <> EmptyString /\ status = "expired"
             /\ record
                = [ ("promo_code", PStr promo_code);
                    ("url", PStr (urljoin E base_url promo_code));
                    ("company_name", extract_company_name E (text r));
                    ("found_date", PStr found_date);
                    ("status", PStr status);
                    ("expiration_date", PStr d) ]).
Proof.
  intros Hrec.
  assert (Hgood : good_fetch E promo_code w).
  { apply check_promo_url_some_iff. exists record. exact Hrec. }
  destruct Hgood as [r [w1 [Hget [Hs Hp]]]].
  rewrite (check_promo_url_found E promo_code w w1 r Hget Hs Hp) in Hrec.
  cbn [fst snd] in Hrec. injection Hrec as <-.
  destruct (expiration_status E (text r) w1) as [Hstatus Hinfo].
  exists r, w1, (fst (now_isoformat E (snd (expiration E (text r) w1)))),
         (fst (fst (expiration E (text r) w1))).
  split; [exact Hget|]. split; [exact Hstatus|].
  unfold make_record.
  destruct (info_truthy (snd (fst (expiration E (text r) w1)))) eqn:Ht.
  - destruct (snd (fst (expiration E (text r) w1))) as [d|] eqn:Hd;
      [|discriminate].
    right. exists d. split; [|split; [apply Hinfo; reflexivity|reflexivity]].
    intros ->. discriminate.
  - left. reflexivity.
Qed.

Lemma check_promo_url_record_witness :
  exists (r : Response) (w1 : World (Fixture.env site_both_dates))
         (found_date status : string),
    session_get (Fixture.env site_both_dates)
                (urljoin (Fixture.env site_both_dates) base_url "AS2305") O
    = (Ok r, w1)
    /\ (status = "active" \/ status = "expired")
    /\ (match fst (fst (check_promo_url (Fixture.env site_both_dates)
                                        "AS2305" O)) with
        | Ok (Some record) => record
        | _ => []
        end
        = [ ("promo_code", PStr "AS2305");
            ("url", PStr (urljoin (Fixture.env site_both_dates)
                                  base_url "AS2305"));
            ("company_name",
             extract_company_name (Fixture.env site_both_dates) (text r));
            ("found_date", PStr found_date);
            ("status", PStr status) ]
        \/ exists d,
             d <> EmptyString /\ status = "expired"
             /\ match fst (fst (check_promo_url (Fixture.env site_both_dates)
                                                "AS2305" O)) with
                | Ok (Some record) => record
                | _ => []
                end
                = [ ("promo_code", PStr "AS2305");
                    ("url", PStr (urljoin (Fixture.env site_both_dates)
                                          base_url "AS2305"));
                    ("company_name",
                     extract_company_name (Fixture.env site_both_dates)
                                          (text r));
                    ("found_date", PStr found_date);
                    ("status", PStr status);
                    ("expiration_date", PStr d) ]).
Proof.
  apply (check_promo_url_record (Fixture.env site_both_dates) "AS2305" O).
  vm_compute. reflexivity.
Defined.

(** ** Script elements without usable data *)

Lemma end_date_loop_dateless (E : Env) (pre l : list (option string)) :
  Forall (dateless E) pre ->
  forall status info (w : World E),
    end_date_loop E (pre ++ l) status info w
    = end_date_loop E l status info w.
Proof.
  induction 1 as [|script pre Hd _ IH]; intros status info w;
    [reflexivity|].
  cbn [app end_date_loop].
  destruct Hd as [-> | [-> | ->]]; apply IH.
Qed.

(** X6.  An end date without a UTC offset is never compared with the
    current time: the comparison raises [TypeError], which the outer
    handler of the date check swallows, and the scripts after it are not
    looked at.  A page without an expiration phrase whose first dated
    script carries such a date is therefore recorded as active, without
    expiration date, whatever the date and whatever follows. *)
Theorem naive_end_date_is_not_compared (E : Env) (promo_code : string)
        (w w1 : World E) (r : Response) (soup : Soup)
        (skipped rest : list (option string)) (script : option string)
        (dt : datetime) :
  session_get E (urljoin E base_url promo_code) w = (Ok r, w1) ->
  status_code r = 200%Z ->
  is_promo_page (text r) = true ->
  has_expiration_phrase (text r) = false ->
  BeautifulSoup E (text r) = Some soup ->
  scripts soup = (skipped ++ script :: rest)%list ->
  Forall (dateless E) skipped ->
  script_end_datetime E script = Ok (Some dt) ->
  utcoffset dt = None ->
  utcoffset (fst (now_astimezone E w1)) <> None ->
  exists record,
    fst (fst (check_promo_url E promo_code w)) = Ok (Some record)
    /\ dict_get "status" record = Some (PStr "active")
    /\ dict_get "expiration_date" record = None.
Proof.
  intros Hget Hs Hp Hphrase Hsoup Hscripts Hskipped Hdt Hnaive Haware.
  rewrite (check_promo_url_found E promo_code w w1 r Hget Hs Hp).
  cbn [fst snd]. eexists. split; [reflexivity|].
  rewrite make_record_status, make_record_expiration_date.
  assert (Hexp : fst (expiration E (text r) w1) = ("active", None)).
  { unfold expiration. rewrite Hphrase, Hsoup, Hscripts.
    rewrite (end_date_loop_dateless E skipped _ Hskipped).
    cbn [end_date_loop]. rewrite Hdt.
    destruct (now_astimezone E w1) as [now w2]. cbn [fst] in Haware.
    unfold DateTime.lt. rewrite Hnaive.
    destruct (utcoffset now); [reflexivity | congruence]. }
  rewrite Hexp. split; reflexivity.
Qed.

Lemma naive_end_date_is_not_compared_witness :
  exists record,
    fst (fst (check_promo_url (Fixture.env site_naive_date) "AS2311" O))
    = Ok (Some record)
    /\ dict_get "status" record = Some (PStr "active")
    /\ dict_get "expiration_date" record = None.
Proof.
  apply (naive_end_date_is_not_compared (Fixture.env site_naive_date)
           "AS2311" O 1
           (ok_response
              (Fixture.page_text "Join Mileage Plan today"
                 [Fixture.ending "2020-01-01T00:00:00";
                  Fixture.ending "2020-01-01T00:00:00Z"]))
           (Fixture.page_soup "Join Mileage Plan today"
                 [Fixture.ending "2020-01-01T00:00:00";
                  Fixture.ending "2020-01-01T00:00:00Z"])
           []
           [Some (Json.dumps (Fixture.ending "2020-01-01T00:00:00Z"))]
           (Some (Json.dumps (Fixture.ending "2020-01-01T00:00:00")))
           {| year := 2020; month := 1; day := 1; hour := 0; minute := 0;
              second := 0; microsecond := 0; utcoffset := None |}).
  - reflexivity.
  - reflexivity.
  - vm_compute. reflexivity.
  - vm_compute. reflexivity.
  - vm_compute. reflexivity.
  - reflexivity.
  - constructor.
  - vm_compute. reflexivity.
  - reflexivity.
  - vm_compute. discriminate.
Defined.

Lemma company_from_scripts_raise (E : Env) (skipped rest : list (option string))
      (script : option string) (e : exn) :
  company_from_scripts E skipped = Ok None ->
  script_company_name E script = Raise e ->
  e <> JSONDecodeError -> e <> KeyError ->
  company_from_scripts E (skipped ++ script :: rest) = Raise e.
Proof.
  intros Hskip Hraise H1 H2.
  induction skipped as [|s skipped IH]; cbn [app company_from_scripts].
  - rewrite Hraise. destruct e; congruence.
  - cbn [company_from_scripts] in Hskip.
    destruct (script_company_name E s) as [[name|]|exc].
    + discriminate.
    + apply IH. exact Hskip.
    + destruct exc; try discriminate; apply IH; exact Hskip.
Qed.

(** X7.  A script element without a single text node (its [string] is
    [None]), or one whose JSON is [None], a boolean or a number, ends the
    extraction: when the scripts before it yielded no name,
    [extract_company_name] returns [None] without trying the patterns on
    the page text, and the date check stops at such a script with the
    status and expiration date it had. *)
Theorem scalar_script_ends_extraction (E : Env) (html : string) (soup : Soup)
        (skipped rest : list (option string)) (script : option string) :
  BeautifulSoup E html = Some soup ->
  scripts soup = (skipped ++ script :: rest)%list ->
  company_from_scripts E skipped = Ok None ->
  script = None
  \/ (exists s v, script = Some s /\ json_loads E s = Some v
                  /\ is_scalar v = true) ->
  extract_company_name E html = PNone
  /\ forall status info (w : World E),
       end_date_loop E (script :: rest) status info w = (status, info, w).
Proof.
  intros Hsoup Hscripts Hskip Hscript.
  assert (Hraise : script_company_name E script = Raise TypeError
                   /\ script_end_datetime E script = Raise TypeError).
  { destruct Hscript as [-> | [s [v [-> [Hload Hv]]]]]; [split; reflexivity|].
    unfold script_company_name, script_end_datetime, load_script.
    rewrite Hload. destruct v; try discriminate; split; reflexivity. }
  destruct Hraise as [Hname Hdate]. split.
  - unfold extract_company_name. rewrite Hsoup, Hscripts.
    rewrite (company_from_scripts_raise E skipped rest script TypeError
               Hskip Hname); [reflexivity | discriminate | discriminate].
  - intros status info w. cbn [end_date_loop]. rewrite Hdate. reflexivity.
Qed.

Lemma scalar_script_ends_extraction_witness :
  extract_company_name (Fixture.env site_null_script) null_script_body
  = PNone
  /\ forall status info (w : World (Fixture.env site_null_script)),
       end_date_loop (Fixture.env site_null_script) [Some "null"]
                     status info w
       = (status, info, w).
Proof.
  apply (scalar_script_ends_extraction (Fixture.env site_null_script)
           null_script_body
           (Fixture.page_soup "Mileage Plan for staff@acme.edu" [PNone])
           [] [] (Some "null")).
  - vm_compute. reflexivity.
  - reflexivity.
  - reflexivity.
  - right. exists "null", PNone.
    split; [reflexivity | split; [vm_compute; reflexivity | reflexivity]].
Defined.

Lemma company_from_scripts_skip (E : Env) (pre rest : list (option string))
      (script : option string) :
  script_company_name E script = Ok None
  \/ script_company_name E script = Raise JSONDecodeError ->
  company_from_scripts E (pre ++ script :: rest)
  = company_from_scripts E (pre ++ rest).
Proof.
  intros Hs. induction pre as [|s pre IH]; cbn [app company_from_scripts].
  - destruct Hs as [-> | ->]; reflexivity.
  - rewrite IH. reflexivity.
Qed.

Lemma end_date_loop_skip (E : Env) (pre rest : list (option string))
      (script : option string) :
  script_end_datetime E script = Ok None
  \/ script_end_datetime E script = Raise JSONDecodeError ->
  forall status info (w : World E),
    end_date_loop E (pre ++ script :: rest) status info w
    = end_date_loop E (pre ++ rest) status info w.
Proof.
  intros Hs. induction pre as [|s pre IH]; intros status info w;
    cbn [app end_date_loop].
  - destruct Hs as [-> | ->]; reflexivity.
  - destruct (script_end_datetime E s) as [[dt|]|e].
    + destruct (now_astimezone E w) as [now w1].
      destruct (DateTime.lt dt now) as [[|]|e];
        [apply IH | apply IH | reflexivity].
    + apply IH.
    + destruct e; try reflexivity; apply IH.
Qed.

(** X8.  A script element whose text is not valid JSON, or is a JSON object
    without the key [props], counts for nothing: both the search for a
    company name and the date check give what they give on the page
    without that script, wherever it stands among the scripts. *)
Theorem useless_script_is_skipped (E : Env) (s : string)
        (pre rest : list (option string)) :
  json_loads E s = None
  \/ (exists d, json_loads E s = Some (PDict d)
                /\ dict_get "props" d = None) ->
  company_from_scripts E (pre ++ Some s :: rest)
  = company_from_scripts E (pre ++ rest)
  /\ forall status info (w : World E),
       end_date_loop E (pre ++ Some s :: rest) status info w
       = end_date_loop E (pre ++ rest) status info w.
Proof.
  intros Hs.
  assert (H : (script_company_name E (Some s) = Ok None
               \/ script_company_name E (Some s) = Raise JSONDecodeError)
              /\ (script_end_datetime E (Some s) = Ok None
                  \/ script_end_datetime E (Some s) = Raise JSONDecodeError)).
  { unfold script_company_name, script_end_datetime, load_script.
    destruct Hs as [-> | [d [-> Hprops]]].
    - split; right; reflexivity.
    - cbn [bind has_page_props py_in]. unfold dict_mem. rewrite Hprops.
      split; left; reflexivity. }
  destruct H as [Hname Hdate]. split.
  - apply company_from_scripts_skip. exact Hname.
  - apply end_date_loop_skip. exact Hdate.
Qed.

Lemma useless_script_is_skipped_witness :
  company_from_scripts (Fixture.env site_acme)
    ([Some "{}"] ++ Some "{oops" :: [Some (Json.dumps Fixture.acme)])
  = company_from_scripts (Fixture.env site_acme)
      ([Some "{}"] ++ [Some (Json.dumps Fixture.acme)])
  /\ forall status info (w : World (Fixture.env site_acme)),
       end_date_loop (Fixture.env site_acme)
         ([Some "{}"] ++ Some "{oops" :: [Some (Json.dumps Fixture.acme)])
         status info w
       = end_date_loop (Fixture.env site_acme)
           ([Some "{}"] ++ [Some (Json.dumps Fixture.acme)]) status info w.
Proof.
  apply (useless_script_is_skipped (Fixture.env site_acme) "{oops"
           [Some "{}"] [Some (Json.dumps Fixture.acme)]).
  left. vm_compute. reflexivity.
Defined.

(** ** The candidates of a scan *)

Lemma index_of_skipn (x : string) (l : list string) :
  forall i, index_of x l = Some i -> exists l', skipn i l = x :: l'.
Proof.
  induction l as [|y l IH]; intros i; cbn [index_of]; [discriminate|].
  destruct (String.eqb_spec y x) as [->|Hne].
  - intros [= <-]. exists l. reflexivity.
  - destruct (index_of x l) as [j|]; [|discriminate].
    intros [= <-]. exact (IH j eq_refl).
Qed.

Lemma index_of_In (x : string) (l : list string) :
  In x l -> exists i, index_of x l = Some i.
Proof.
  induction l as [|y l IH]; intros Hin; [destruct Hin|].
  cbn [index_of]. destruct (String.eqb_spec y x) as [->|Hne]; [eauto|].
  destruct Hin as [Heq|Hin]; [contradiction|].
  destruct (IH Hin) as [i ->]. eauto.
Qed.

Lemma index_of_not_In (x : string) (l : list string) :
  ~ In x l -> index_of x l = None.
Proof.
  intros Hnot. destruct (index_of x l) as [i|] eqn:Hi; [|reflexivity].
  destruct (index_of_skipn x l i Hi) as [l' Hl'].
  exfalso. apply Hnot. rewrite <- (firstn_skipn i l), Hl'.
  apply in_or_app. right. left. reflexivity.
Qed.

Lemma generated_code_not_empty (s : string) :
  In s generate_promo_codes -> s <> EmptyString.
Proof.
  intros Hin ->. apply existsb_eqb_In in Hin.
  vm_compute in Hin. discriminate.
Qed.

Lemma start_truthy_some (s : string) :
  s <> EmptyString -> start_truthy (Some s) = true.
Proof.
  intros Hne. cbn.
  destruct (String.eqb_spec s EmptyString); [contradiction | reflexivity].
Qed.

Lemma slice_to_window {A : Type} (n : Z) (l : list A) :
  exists b, slice_to n l = firstn b l.
Proof. unfold slice_to. destruct (0 <=? n)%Z; eauto. Qed.

(** X9.  The candidates [search_promos] scans are a run of consecutive
    generated codes.  A positive [max_codes] bounds their number.  A
    [start_from] that is a generated code is logged and, unless a negative
    [max_codes] cuts it off, is the first candidate; any other non-empty
    [start_from] is logged as not found and the scan starts from the
    first generated code. *)
Theorem select_codes_window (max_codes : option Z)
        (start_from : option string) :
  (exists a b,
     fst (select_codes max_codes start_from)
     = firstn b (skipn a generate_promo_codes))
  /\ (forall n, max_codes = Some n -> (0 < n)%Z ->
        List.length (fst (select_codes max_codes start_from))
        <= Z.to_nat n)
  /\ (forall s, start_from = Some s -> In s generate_promo_codes ->
        snd (select_codes max_codes start_from) = [LogStartingFrom s]
        /\ (match max_codes with
            | Some n => (0 <= n)%Z
            | None => True
            end ->
            hd_error (fst (select_codes max_codes start_from)) = Some s))
  /\ (forall s, start_from = Some s -> s <> EmptyString ->
        ~ In s generate_promo_codes ->
        select_codes max_codes start_from
        = (fst (select_codes max_codes None), [LogStartNotFound s])).
Proof.
  split; [|split; [|split]].
  - assert (Hstart : exists a,
              fst (select_codes None start_from)
              = skipn a generate_promo_codes).
    { unfold select_codes. destruct start_from as [s|]; [|exists 0; reflexivity].
      destruct (start_truthy (Some s)); [|exists 0; reflexivity].
      destruct (index_of s generate_promo_codes) as [i|];
        [exists i | exists 0]; reflexivity. }
    destruct Hstart as [a Ha]. exists a.
    assert (Hmax : fst (select_codes max_codes start_from)
                   = match max_codes with
                     | Some n => if max_truthy max_codes
                                 then slice_to n (fst (select_codes None start_from))
                                 else fst (select_codes None start_from)
                     | None => fst (select_codes None start_from)
                     end).
    { unfold select_codes. destruct start_from as [s|]; [|reflexivity].
      destruct (start_truthy (Some s)); [|reflexivity].
      destruct (index_of s generate_promo_codes); reflexivity. }
    rewrite Hmax, Ha.
    destruct max_codes as [n|];
      [destruct (max_truthy (Some n))|].
    + apply slice_to_window.
    + exists (List.length (skipn a generate_promo_codes)).
      rewrite firstn_all. reflexivity.
    + exists (List.length (skipn a generate_promo_codes)).
      rewrite firstn_all. reflexivity.
  - intros n -> Hn. unfold select_codes.
    assert (Ht : max_truthy (Some n) = true).
    { cbn. destruct (Z.eqb_spec n 0); [lia | reflexivity]. }
    assert (Hslice : forall l : list string,
              List.length (slice_to n l) <= Z.to_nat n).
    { intros l. unfold slice_to.
      destruct (Z.leb_spec 0 n); [|lia].
      rewrite length_firstn. lia. }
    destruct start_from as [s|]; [|rewrite Ht; apply Hslice].
    destruct (start_truthy (Some s)); [|rewrite Ht; apply Hslice].
    destruct (index_of s generate_promo_codes);
      rewrite Ht; apply Hslice.
  - intros s -> Hin.
    destruct (index_of_In s _ Hin) as [i Hi].
    destruct (index_of_skipn s _ i Hi) as [l' Hl'].
    unfold select_codes.
    rewrite (start_truthy_some s (generated_code_not_empty s Hin)), Hi, Hl'.
    split; [reflexivity|].
    destruct max_codes as [n|]; [|reflexivity].
    intros Hn. cbn [fst]. unfold max_truthy.
    destruct (Z.eqb_spec n 0) as [->|Hne]; [reflexivity|].
    cbn [negb]. unfold slice_to.
    destruct (Z.leb_spec 0 n); [|lia].
    destruct (Z.to_nat n) as [|k] eqn:Hk; [lia | reflexivity].
  - intros s -> Hne Hnot. unfold select_codes.
    rewrite (start_truthy_some s Hne), (index_of_not_In s _ Hnot).
    reflexivity.
Qed.

(** ** The files a scan writes *)

Lemma stored_state_fields (E : Env) (st : Finder E) (results' : pyval)
      (found_count : nat) :
  results_file (stored_state E st results' found_count) = results_file st
  /\ results (stored_state E st results' found_count) = results'
  /\ world (stored_state E st results' found_count) = world st
  /\ (forall path, path <> results_file st ->
        dict_get path (files (stored_state E st results' found_count))
        = dict_get path (files st)).
Proof.
  unfold stored_state.
  destruct (S found_count mod 5 =? 0)%nat; cbn.
  - repeat split. intros path Hne. apply dict_get_set_other. exact Hne.
  - repeat split.
Qed.






(** ** Counting what a scan found and saved *)

Lemma count_app (f : log_entry -> bool) (l1 l2 : list log_entry) :
  count f (l1 ++ l2) = count f l1 + count f l2.
Proof. unfold count. rewrite filter_app, length_app. reflexivity. Qed.


Lemma stored_state_log (E : Env) (st : Finder E) (results' : pyval)
      (found_count : nat) :
  log (stored_state E st results' found_count)
  = (log st ++ (if (S found_count mod 5 =? 0)%nat then [LogSaved] else []))%list.
Proof.
  unfold stored_state.
  destruct (S found_count mod 5 =? 0)%nat; cbn;
    [reflexivity | rewrite app_nil_r; reflexivity].
Qed.


Lemma rejected_entries_count (code : string) (logged : list log_entry) :
  logged = [LogNotValid code]
  \/ (exists sc, logged = [LogHTTP code sc])
  \/ logged = [LogRequestFailed code] ->
  count is_found logged = 0 /\ count is_saved logged = 0
  /\ count is_checking logged = 0.
Proof.
  intros [ -> | [ [sc -> ] | -> ] ]; repeat split.
Qed.


Lemma select_codes_log (max_codes : option Z) (start_from : option string) :
  count is_found (snd (select_codes max_codes start_from)) = 0
  /\ count is_saved (snd (select_codes max_codes start_from)) = 0
  /\ count is_checking (snd (select_codes max_codes start_from)) = 0.
Proof.
  unfold select_codes. destruct start_from as [s|]; [|repeat split].
  destruct (start_truthy (Some s)); [|repeat split].
  destruct (index_of s generate_promo_codes); repeat split.
Qed.



(** ** The requests of a scan *)

Lemma select_codes_length (max_codes : option Z) (start_from : option string)
      (n : Z) :
  max_codes = Some n -> (0 < n)%Z ->
  List.length (fst (select_codes max_codes start_from)) <= Z.to_nat n.
Proof.
  intros -> Hn. unfold select_codes.
  assert (Ht : max_truthy (Some n) = true).
  { cbn. destruct (Z.eqb_spec n 0); [lia | reflexivity]. }
  assert (Hslice : forall l : list string,
            List.length (slice_to n l) <= Z.to_nat n).
  { intros l. unfold slice_to.
    destruct (Z.leb_spec 0 n); [|lia].
    rewrite length_firstn. lia. }
  destruct start_from as [s|]; [|rewrite Ht; apply Hslice].
  destruct (start_truthy (Some s)); [|rewrite Ht; apply Hslice].
  destruct (index_of s generate_promo_codes);
    rewrite Ht; apply Hslice.
Qed.

Lemma scan_codes_checking (E : Env) (total : nat) (l : list string) :
  forall i found_count (st : Finder E),
  exists entries,
    log (snd (scan_codes E total i l found_count st))
    = (log st ++ entries)%list
    /\ count is_checking entries <= List.length l
    /\ forall j t c,
         In (LogChecking j t c) entries ->
         t = total
         /\ exists k, j = S (i + k) /\ nth_error l k = Some c.
Proof.
  apply (scan_codes_cases E total
           (fun i l fc st out =>
              exists entries,
                log (snd out) = (log st ++ entries)%list
                /\ count is_checking entries <= List.length l
                /\ forall j t c,
                     In (LogChecking j t c) entries ->
                     t = total
                     /\ exists k, j = S (i + k) /\ nth_error l k = Some c)).
  - intros i fc st. exists []. cbn. rewrite app_nil_r.
    split; [reflexivity|]. split; [lia|]. intros j t c [].
  - intros i code l' fc st e _. exists []. cbn. rewrite app_nil_r.
    split; [reflexivity|]. split; [lia|]. intros j t c [].
  - intros i code l' fc st out _ [entries [Hlog [Hcount Hnum]]].
    exists entries. split; [exact Hlog|]. split; [cbn; lia|].
    intros j t c Hin. destruct (Hnum j t c Hin) as [Ht [k [Hj Hk]]].
    split; [exact Ht|]. exists (S k). split; [lia | exact Hk].
  - intros i code l' fc st e w1 _ _ _.
    exists [LogChecking (S i) total code].
    cbn [snd checked_state write_log set_world log]. rewrite app_nil_r.
    split; [reflexivity|]. split; [cbn; lia|].
    intros j t c [[= <- <- <-]|[]]. split; [reflexivity|].
    exists 0. split; [lia | reflexivity].
  - intros i code l' fc st logged w1 out _ _ _ Hlogged
           [entries [Hlog [Hcount Hnum]]].
    destruct (rejected_entries_count code logged Hlogged) as [_ [_ Hc]].
    exists ([LogChecking (S i) total code] ++ logged ++ entries)%list.
    split.
    { rewrite Hlog.
      cbn [slept_state checked_state write_log set_world log].
      rewrite <- !app_assoc. reflexivity. }
    split.
    { rewrite !count_app, Hc.
      change (count is_checking [LogChecking (S i) total code]) with 1.
      cbn [List.length]. lia. }
    intros j t c Hin. apply in_app_or in Hin.
    destruct Hin as [[[= <- <- <-]|[]]|Hin].
    { split; [reflexivity|]. exists 0. split; [lia | reflexivity]. }
    apply in_app_or in Hin. destruct Hin as [Hin|Hin].
    { exfalso.
      destruct Hlogged as [ -> | [ [sc -> ] | -> ] ];
        destruct Hin as [Hin|[]]; discriminate. }
    destruct (Hnum j t c Hin) as [Ht [k [Hj Hk]]].
    split; [exact Ht|]. exists (S k). split; [lia | exact Hk].
  - intros i code l' fc st record cn s w1 results' out _ _ _ _
           [entries [Hlog [Hcount Hnum]]].
    cbn [slept_state set_world log] in Hlog.
    rewrite stored_state_log in Hlog.
    cbn [checked_state write_log set_world log] in Hlog.
    exists ([LogChecking (S i) total code; LogFound code cn s]
              ++ (if (S fc mod 5 =? 0)%nat then [LogSaved] else [])
              ++ entries)%list.
    split; [rewrite Hlog, <- !app_assoc; reflexivity|].
    split.
    { rewrite !count_app.
      change (count is_checking
                [LogChecking (S i) total code; LogFound code cn s]) with 1.
      replace (count is_checking
                 (if (S fc mod 5 =? 0)%nat then [LogSaved] else []))
        with 0 by (destruct (S fc mod 5 =? 0)%nat; reflexivity).
      cbn [List.length]. lia. }
    intros j t c Hin. apply in_app_or in Hin.
    destruct Hin as [[[= <- <- <-]|[Hin|[]]]|Hin]; [|discriminate|].
    { split; [reflexivity|]. exists 0. split; [lia | reflexivity]. }
    apply in_app_or in Hin. destruct Hin as [Hin|Hin].
    { exfalso. destruct (S fc mod 5 =? 0)%nat;
        [destruct Hin as [Hin|[]]; discriminate | destruct Hin]. }
    destruct (Hnum j t c Hin) as [Ht [k [Hj Hk]]].
    split; [exact Ht|]. exists (S k). split; [lia | exact Hk].
  - intros i code l' fc st record cn s w1 e _ _ _ _.
    exists [LogChecking (S i) total code; LogFound code cn s].
    cbn [snd checked_state write_log set_world log].
    rewrite <- app_assoc.
    split; [reflexivity|]. split; [cbn; lia|].
    intros j t c [[= <- <- <-]|[Hin|[]]]; [|discriminate].
    split; [reflexivity|]. exists 0. split; [lia | reflexivity].
Qed.

(** X13.  A scan logs a "Checking" line each time it goes on to request a
    page, and no more such lines than there are candidates: with a
    positive [max_codes], at most that many.  Each such line carries the
    position of its code among the candidates, counted from 1, and the
    number of candidates. *)
Theorem search_promos_budget (E : Env) (max_codes : option Z)
        (start_from : option string) (st : Finder E) :
  exists entries,
    log (snd (search_promos E max_codes start_from st))
    = (log st ++ entries)%list
    /\ count is_checking entries
       <= List.length (fst (select_codes max_codes start_from))
    /\ (forall n, max_codes = Some n -> (0 < n)%Z ->
          count is_checking entries <= Z.to_nat n)
    /\ forall i total c,
         In (LogChecking i total c) entries ->
         total = List.length (fst (select_codes max_codes start_from))
         /\ 1 <= i <= total
         /\ nth_error (fst (select_codes max_codes start_from)) (i - 1)
            = Some c.
Proof.
  pose proof (select_codes_length max_codes start_from) as Hbound.
  pose proof (select_codes_log max_codes start_from) as [_ [_ Hsc]].
  assert (Hpre : forall i total c,
            ~ In (LogChecking i total c)
                 (snd (select_codes max_codes start_from))).
  { intros i total c. unfold select_codes.
    destruct start_from as [s|]; [|intros []].
    destruct (start_truthy (Some s)); [|intros []].
    destruct (index_of s generate_promo_codes);
      intros [Hin|[]]; discriminate. }
  unfold search_promos.
  destruct (select_codes max_codes start_from) as [codes pre].
  cbn [fst snd] in *.
  set (st1 := write_log E st (pre ++ [LogSearching (List.length codes)])).
  destruct (scan_codes_checking E (List.length codes) codes 0 0 st1)
    as [entries [Hlog [Hcount Hnum]]].
  assert (Hnum' : forall i total c,
            In (LogChecking i total c) entries ->
            total = List.length codes /\ 1 <= i <= total
            /\ nth_error codes (i - 1) = Some c).
  { intros i total c Hin. destruct (Hnum i total c Hin) as [-> [k [-> Hk]]].
    split; [reflexivity|].
    assert (k < List.length codes)
      by (apply nth_error_Some; rewrite Hk; discriminate).
    split; [cbn; lia|].
    replace (S (0 + k) - 1) with k by lia. exact Hk. }
  destruct (scan_codes E (List.length codes) 0 codes 0 st1) as [[n|e] st2];
    cbn [fst snd] in *.
  - exists (pre ++ [LogSearching (List.length codes)] ++ entries
              ++ [LogSaved; LogComplete n])%list.
    split.
    { cbn [write_log save_results set_files log]. rewrite Hlog.
      unfold st1. cbn [write_log log]. rewrite <- !app_assoc. reflexivity. }
    assert (Hc : count is_checking
                   (pre ++ [LogSearching (List.length codes)] ++ entries
                      ++ [LogSaved; LogComplete n])
                 = count is_checking entries).
    { rewrite !count_app, Hsc.
      change (count is_checking [LogSearching (List.length codes)]) with 0.
      change (count is_checking [LogSaved; LogComplete n]) with 0. lia. }
    rewrite Hc. split; [exact Hcount|].
    split; [intros m Hm Hpos; specialize (Hbound m Hm Hpos); lia|].
    intros i total c Hin. apply in_app_or in Hin.
    destruct Hin as [Hin|Hin]; [destruct (Hpre i total c Hin)|].
    destruct Hin as [Hin|Hin]; [discriminate|]. cbn [app] in Hin.
    apply in_app_or in Hin. destruct Hin as [Hin|Hin];
      [exact (Hnum' i total c Hin)|].
    destruct Hin as [Hin|Hin]; [discriminate|].
    destruct Hin as [Hin|Hin]; [discriminate | destruct Hin].
  - exists (pre ++ [LogSearching (List.length codes)] ++ entries)%list.
    split.
    { rewrite Hlog. unfold st1. cbn [write_log log].
      rewrite <- !app_assoc. reflexivity. }
    assert (Hc : count is_checking
                   (pre ++ [LogSearching (List.length codes)] ++ entries)
                 = count is_checking entries).
    { rewrite !count_app, Hsc.
      change (count is_checking [LogSearching (List.length codes)]) with 0.
      lia. }
    rewrite Hc. split; [exact Hcount|].
    split; [intros m Hm Hpos; specialize (Hbound m Hm Hpos); lia|].
    intros i total c Hin. apply in_app_or in Hin.
    destruct Hin as [Hin|Hin]; [destruct (Hpre i total c Hin)|].
    destruct Hin as [Hin|Hin]; [discriminate|]. cbn [app] in Hin.
    exact (Hnum' i total c Hin).
Qed.

(** ** Scanning again *)

Lemma bad_fetch_returns_none (E : Env) (c : string) (w : World E) :
  bad_fetch E c w -> fst (fst (check_promo_url E c w)) = Ok None.
Proof.
  intros Hbad.
  destruct (check_promo_url_outcome E c w)
    as [[Hg _]|[[_ [Hnone _]]|[e [Hne [[w1 Hget] _]]]]].
  - destruct (good_fetch_not_bad E c w Hg Hbad).
  - exact Hnone.
  - exfalso.
    destruct Hbad as [[[r [w2 [Hget' _]]]|[w2 Hget']]|[r [w2 [Hget' _]]]];
      rewrite Hget in Hget'; congruence.
Qed.

Lemma scan_codes_settled (E : Env) (total : nat) (l : list string) :
  forall i found_count (st : Finder E) (d : dict pyval),
    static_site E ->
    results st = PDict d ->
    (forall c, In c l ->
               dict_mem c d = true \/ exists w, bad_fetch E c w) ->
    fst (scan_codes E total i l found_count st) = Ok found_count
    /\ results (snd (scan_codes E total i l found_count st)) = PDict d
    /\ files (snd (scan_codes E total i l found_count st)) = files st.
Proof.
  apply (scan_codes_cases E total
           (fun i l fc st out =>
              forall d, static_site E -> results st = PDict d ->
              (forall c, In c l ->
                         dict_mem c d = true \/ exists w, bad_fetch E c w) ->
              fst out = Ok fc /\ results (snd out) = PDict d
              /\ files (snd out) = files st)).
  - intros i fc st d _ Hd _. repeat split. exact Hd.
  - intros i code l' fc st e Hin d _ Hd _. rewrite Hd in Hin. discriminate.
  - intros i code l' fc st out _ IH d Hs Hd Hl.
    apply IH; [exact Hs | exact Hd |].
    intros c Hc. apply Hl. right. exact Hc.
  - intros i code l' fc st e w1 Hin Hcheck _ d Hs Hd Hl. exfalso.
    rewrite Hd in Hin. injection Hin as Hin.
    destruct (Hl code (or_introl eq_refl)) as [Hmem|[w Hbad]];
      [congruence|].
    pose proof (bad_fetch_returns_none E code (world st)
                  (bad_fetch_static E code w (world st) Hs Hbad)) as Hnone.
    rewrite Hcheck in Hnone. discriminate.
  - intros i code l' fc st logged w1 out _ _ _ _ IH d Hs Hd Hl.
    apply (IH d Hs); [exact Hd|].
    intros c Hc. apply Hl. right. exact Hc.
  - intros i code l' fc st record cn s w1 results' out Hin _ Hgood _ _
           d Hs Hd Hl. exfalso.
    rewrite Hd in Hin. injection Hin as Hin.
    destruct (Hl code (or_introl eq_refl)) as [Hmem|[w Hbad]];
      [congruence|].
    exact (good_fetch_not_bad E code (world st) Hgood
             (bad_fetch_static E code w (world st) Hs Hbad)).
  - intros i code l' fc st record cn s w1 e _ _ _ Hset d _ Hd _.
    rewrite Hd in Hset. discriminate.
Qed.

(** X14.  On a site whose answers do not change, scanning again after a
    scan that returned finds nothing new: the second scan, with the same
    bounds and the store the first one left, returns as well, leaves the
    store as it is and closes the log with zero discoveries. *)
Theorem rescan_finds_nothing (E : Env) (max_codes : option Z)
        (start_from : option string) (st st2 : Finder E) (d : dict pyval) :
  static_site E ->
  results st = PDict d ->
  fst (search_promos E max_codes start_from st) = Ok tt ->
  results st2 = results (snd (search_promos E max_codes start_from st)) ->
  fst (search_promos E max_codes start_from st2) = Ok tt
  /\ results (snd (search_promos E max_codes start_from st2)) = results st2
  /\ exists entries,
       log (snd (search_promos E max_codes start_from st2))
       = (log st2 ++ entries ++ [LogComplete 0])%list.
Proof.
  intros Hs Hd Hok Hst2.
  destruct (search_promos_facts E max_codes start_from st d Hd)
    as [d' [entries [Hres [_ [Hdone Hfacts]]]]].
  destruct (Hdone Hok) as [Hcomplete Hcovered].
  rewrite Hres in Hst2.
  assert (Hsettled : forall c,
            In c (fst (select_codes max_codes start_from)) ->
            dict_mem c d' = true \/ exists w, bad_fetch E c w).
  { intros c Hc. destruct (dict_mem c d') eqn:Hmem'; [left; reflexivity|].
    right.
    assert (Hmem : dict_mem c d = false).
    { destruct (dict_mem c d) eqn:Hmem; [|reflexivity].
      rewrite <- Hmem'. symmetry.
      apply (sf_store _ _ _ _ _ Hfacts). left. exact Hmem. }
    destruct (Hcomplete c (Hcovered c Hc Hmem)) as [Hconf|Hrej].
    - assert (dict_mem c d' = true)
        by (apply (sf_store _ _ _ _ _ Hfacts); right; exact Hconf).
      congruence.
    - exact (sf_bad _ _ _ _ _ Hfacts c Hrej). }
  unfold search_promos.
  destruct (select_codes max_codes start_from) as [codes pre].
  cbn [fst] in Hsettled.
  set (st1 := write_log E st2 (pre ++ [LogSearching (List.length codes)])).
  destruct (scan_codes_settled E (List.length codes) codes 0 0 st1 d' Hs Hst2
              Hsettled) as [Hfst [Hresults _]].
  destruct (scan_codes_checking E (List.length codes) codes 0 0 st1)
    as [entries2 [Hlog _]].
  destruct (scan_codes E (List.length codes) 0 codes 0 st1) as [[n|e] st3];
    cbn [fst snd] in *; [|discriminate].
  injection Hfst as ->.
  split; [reflexivity|]. split.
  - cbn [write_log save_results set_files results]. congruence.
  - exists (pre ++ [LogSearching (List.length codes)] ++ entries2
              ++ [LogSaved])%list.
    cbn [write_log save_results set_files log]. rewrite Hlog.
    unfold st1. cbn [write_log log]. rewrite <- !app_assoc. reflexivity.
Qed.

Lemma rescan_finds_nothing_witness :
  fst (search_promos (Fixture.env site_scan) (Some 10%Z) (Some "AS2300")
         (snd (search_promos (Fixture.env site_scan) (Some 10%Z)
                 (Some "AS2300") (Fixture.start site_scan old_store))))
  = Ok tt
  /\ results (snd (search_promos (Fixture.env site_scan) (Some 10%Z)
                     (Some "AS2300")
                     (snd (search_promos (Fixture.env site_scan) (Some 10%Z)
                             (Some "AS2300")
                             (Fixture.start site_scan old_store)))))
     = results (snd (search_promos (Fixture.env site_scan) (Some 10%Z)
                       (Some "AS2300") (Fixture.start site_scan old_store)))
  /\ exists entries,
       log (snd (search_promos (Fixture.env site_scan) (Some 10%Z)
                   (Some "AS2300")
                   (snd (search_promos (Fixture.env site_scan) (Some 10%Z)
                           (Some "AS2300")
                           (Fixture.start site_scan old_store)))))
       = (log (snd (search_promos (Fixture.env site_scan) (Some 10%Z)
                      (Some "AS2300") (Fixture.start site_scan old_store)))
            ++ entries ++ [LogComplete 0])%list.
Proof.
  apply (rescan_finds_nothing (Fixture.env site_scan) (Some 10%Z)
           (Some "AS2300") (Fixture.start site_scan old_store)
           (snd (search_promos (Fixture.env site_scan) (Some 10%Z)
                   (Some "AS2300") (Fixture.start site_scan old_store)))
           old_store).
  - intros url w w'. reflexivity.
  - reflexivity.
  - vm_compute. reflexivity.
  - reflexivity.
Defined.

(** ** The records a scan stores *)

Lemma make_record_promo_code (promo_code url : string) (company_name : pyval)
      (found_date status : string) (info : option string) :
  dict_get "promo_code"
    (make_record promo_code url company_name found_date status info)
  = Some (PStr promo_code).
Proof.
  unfold make_record. destruct info as [d|]; [|reflexivity].
  destruct (info_truthy (Some d)); reflexivity.
Qed.

Lemma check_promo_url_promo_code (E : Env) (c : string) (w : World E)
      (record : dict pyval) :
  fst (fst (check_promo_url E c w)) = Ok (Some record) ->
  dict_get "promo_code" record = Some (PStr c).
Proof.
  intros Hrec.
  assert (Hgood : good_fetch E c w).
  { apply check_promo_url_some_iff. exists record. exact Hrec. }
  destruct Hgood as [r [w1 [Hget [Hs Hp]]]].
  rewrite (check_promo_url_found E c w w1 r Hget Hs Hp) in Hrec.
  cbn [fst snd] in Hrec. injection Hrec as <-.
  apply make_record_promo_code.
Qed.

Lemma scan_codes_records (E : Env) (total : nat) (l : list string) :
  forall i found_count (st : Finder E) (d : dict pyval),
    results st = PDict d ->
    exists d',
      results (snd (scan_codes E total i l found_count st)) = PDict d'
      /\ forall c v,
           dict_get c d' = Some v ->
           dict_get c d = Some v
           \/ (dict_mem c d = false /\ In c l
               /\ exists w record,
                    fst (fst (check_promo_url E c w)) = Ok (Some record)
                    /\ v = PDict record
                    /\ dict_get "promo_code" record = Some (PStr c)).
Proof.
  apply (scan_codes_cases E total
           (fun i l fc st out =>
              forall d, results st = PDict d ->
              exists d',
                results (snd out) = PDict d'
                /\ forall c v,
                     dict_get c d' = Some v ->
                     dict_get c d = Some v
                     \/ (dict_mem c d = false /\ In c l
                         /\ exists w record,
                              fst (fst (check_promo_url E c w))
                              = Ok (Some record)
                              /\ v = PDict record
                              /\ dict_get "promo_code" record
                                 = Some (PStr c)))).
  - intros i fc st d Hd. exists d. split; [exact Hd|]. intros c v H. left. exact H.
  - intros i code l' fc st e Hin d Hd. rewrite Hd in Hin. discriminate.
  - intros i code l' fc st out _ IH d Hd.
    destruct (IH d Hd) as [d' [Hres Hrec]]. exists d'. split; [exact Hres|].
    intros c v Hget. destruct (Hrec c v Hget) as [H|[Hm [Hc H]]];
      [left; exact H | right].
    split; [exact Hm|]. split; [right; exact Hc | exact H].
  - intros i code l' fc st e w1 _ _ _ d Hd. exists d.
    split; [exact Hd|]. intros c v H. left. exact H.
  - intros i code l' fc st logged w1 out _ _ _ _ IH d Hd.
    destruct (IH d Hd) as [d' [Hres Hrec]]. exists d'. split; [exact Hres|].
    intros c v Hget. destruct (Hrec c v Hget) as [H|[Hm [Hc H]]];
      [left; exact H | right].
    split; [exact Hm|]. split; [right; exact Hc | exact H].
  - intros i code l' fc st record cn s w1 results' out Hin Hcheck _ Hset IH
           d Hd.
    rewrite Hd in Hset, Hin. cbn [py_setitem py_in] in Hset, Hin.
    injection Hset as <-. injection Hin as Hin.
    destruct (stored_state_fields E
                (checked_state E st i total code [LogFound code cn s] w1)
                (PDict (dict_set code (PDict record) d)) fc)
      as [_ [Hr _]].
    destruct (IH (dict_set code (PDict record) d) Hr) as [d' [Hres Hrec]].
    exists d'. split; [exact Hres|].
    assert (Hfst : fst (fst (check_promo_url E code (world st)))
                   = Ok (Some record)) by (rewrite Hcheck; reflexivity).
    intros c v Hget. destruct (Hrec c v Hget) as [H|[Hm [Hc H]]].
    + destruct (String.eqb_spec c code) as [->|Hne].
      * rewrite dict_get_set_same in H. injection H as <-.
        right. split; [exact Hin|]. split; [left; reflexivity|].
        exists (world st), record. split; [exact Hfst|].
        split; [reflexivity|].
        exact (check_promo_url_promo_code E code (world st) record Hfst).
      * rewrite dict_get_set_other in H by exact Hne. left. exact H.
    + right. rewrite dict_mem_set in Hm. apply orb_false_iff in Hm.
      split; [exact (proj2 Hm)|]. split; [right; exact Hc | exact H].
  - intros i code l' fc st record cn s w1 e _ _ _ Hset d Hd.
    rewrite Hd in Hset. discriminate.
Qed.

(** X15.  After a scan of a dict store, every record of the store is either
    one the store held before, unchanged, or the record [check_promo_url]
    returned for the candidate code it is stored under; the [promo_code]
    field of such a record is that code. *)
Theorem stored_record_matches_code (E : Env) (max_codes : option Z)
        (start_from : option string) (st : Finder E) (d : dict pyval) :
  results st = PDict d ->
  exists d',
    results (snd (search_promos E max_codes start_from st)) = PDict d'
    /\ forall c v,
         dict_get c d' = Some v ->
         dict_get c d = Some v
         \/ (dict_mem c d = false
             /\ In c (fst (select_codes max_codes start_from))
             /\ exists w record,
                  fst (fst (check_promo_url E c w)) = Ok (Some record)
                  /\ v = PDict record
                  /\ dict_get "promo_code" record = Some (PStr c)).
Proof.
  intros Hd. unfold search_promos.
  destruct (select_codes max_codes start_from) as [codes pre].
  cbn [fst].
  set (st1 := write_log E st (pre ++ [LogSearching (List.length codes)])).
  destruct (scan_codes_records E (List.length codes) codes 0 0 st1 d Hd)
    as [d' [Hres Hrec]].
  exists d'.
  destruct (scan_codes E (List.length codes) 0 codes 0 st1) as [[n|e] st2];
    cbn [fst snd] in *; split; try exact Hrec; exact Hres.
Qed.

Lemma stored_record_matches_code_witness :
  exists d',
    results (snd (search_promos (Fixture.env site_scan) (Some 10%Z)
                    (Some "AS2300") (Fixture.start site_scan old_store)))
    = PDict d'
    /\ forall c v,
         dict_get c d' = Some v ->
         dict_get c old_store = Some v
         \/ (dict_mem c old_store = false
             /\ In c (fst (select_codes (Some 10%Z) (Some "AS2300")))
             /\ exists w record,
                  fst (fst (check_promo_url (Fixture.env site_scan) c w))
                  = Ok (Some record)
                  /\ v = PDict record
                  /\ dict_get "promo_code" record = Some (PStr c)).
Proof.
  apply (stored_record_matches_code (Fixture.env site_scan) (Some 10%Z)
           (Some "AS2300") (Fixture.start site_scan old_store) old_store).
  reflexivity.
Defined.

(** ** Exceptions *)




(** ** Stores that are no dict *)

Lemma py_setitem_raise (v : pyval) (k : string) (x : pyval) (e : exn) :
  py_setitem v k x = Raise e -> e = TypeError.
Proof. destruct v; cbn; congruence. Qed.

Lemma scan_codes_non_dict (E : Env) (total : nat) (l : list string) :
  forall i found_count (st : Finder E),
    is_record (results st) = false ->
    results (snd (scan_codes E total i l found_count st)) = results st
    /\ exists entries,
         log (snd (scan_codes E total i l found_count st))
         = (log st ++ entries)%list
         /\ forall c, confirmed entries c ->
              fst (scan_codes E total i l found_count st) = Raise TypeError.
Proof.
  apply (scan_codes_cases E total
           (fun i l fc st out =>
              is_record (results st) = false ->
              results (snd out) = results st
              /\ exists entries,
                   log (snd out) = (log st ++ entries)%list
                   /\ forall c, confirmed entries c ->
                                fst out = Raise TypeError)).
  - intros i fc st _. split; [reflexivity|]. exists [].
    cbn. rewrite app_nil_r. split; [reflexivity|].
    intros c [cn [s []]].
  - intros i code l' fc st e _ _. split; [reflexivity|]. exists [].
    cbn. rewrite app_nil_r. split; [reflexivity|].
    intros c [cn [s []]].
  - intros i code l' fc st out _ IH Hn. exact (IH Hn).
  - intros i code l' fc st e w1 _ _ _ _. split; [reflexivity|].
    exists [LogChecking (S i) total code].
    cbn [snd checked_state write_log set_world log]. rewrite app_nil_r.
    split; [reflexivity|].
    intros c [cn [s [H|[]]]]. discriminate.
  - intros i code l' fc st logged w1 out _ _ _ Hlogged IH Hn.
    destruct (IH Hn) as [Hres [entries [Hlog Hconf]]].
    split; [exact Hres|].
    exists ([LogChecking (S i) total code] ++ logged ++ entries)%list.
    split.
    { rewrite Hlog.
      cbn [slept_state checked_state write_log set_world log].
      rewrite <- !app_assoc. reflexivity. }
    intros c [cn [s Hin]]. apply in_app_or in Hin.
    destruct Hin as [[Hin|[]]|Hin]; [discriminate|].
    apply in_app_or in Hin. destruct Hin as [Hin|Hin].
    + exfalso. destruct Hlogged as [ -> | [ [sc -> ] | -> ] ];
        destruct Hin as [Hin|[]]; discriminate.
    + apply (Hconf c). exists cn, s. exact Hin.
  - intros i code l' fc st record cn s w1 results' out _ _ _ Hset _ Hn.
    exfalso. destruct (results st); try discriminate.
  - intros i code l' fc st record cn s w1 e _ _ _ Hset _.
    apply py_setitem_raise in Hset. subst e.
    split; [reflexivity|].
    exists [LogChecking (S i) total code; LogFound code cn s].
    cbn [fst snd checked_state write_log set_world log].
    rewrite <- app_assoc. split; reflexivity.
Qed.

Lemma no_found_not_confirmed (entries : list log_entry) :
  count is_found entries = 0 -> forall c, ~ confirmed entries c.
Proof.
  intros Hcount c [cn [s Hin]]. unfold count in Hcount.
  induction entries as [|x entries IH]; [destruct Hin|].
  destruct Hin as [->|Hin]; [discriminate|].
  cbn [filter] in Hcount. destruct (is_found x); [discriminate|].
  apply IH; assumption.
Qed.

(** X17.  A store that is no dict, such as the list that [__init__] loads
    from a results file holding a JSON array, is never changed by a scan,
    and the first discovery ends the scan with [TypeError]: no promo can be
    recorded in it. *)
Theorem non_dict_store_rejects_discoveries (E : Env) (max_codes : option Z)
        (start_from : option string) (st : Finder E) :
  is_record (results st) = false ->
  results (snd (search_promos E max_codes start_from st)) = results st
  /\ exists entries,
       log (snd (search_promos E max_codes start_from st))
       = (log st ++ entries)%list
       /\ forall c, confirmed entries c ->
            fst (search_promos E max_codes start_from st) = Raise TypeError.
Proof.
  intros Hn. unfold search_promos.
  pose proof (select_codes_log max_codes start_from) as [Hsf _].
  destruct (select_codes max_codes start_from) as [codes pre].
  cbn [snd] in Hsf.
  set (st1 := write_log E st (pre ++ [LogSearching (List.length codes)])).
  destruct (scan_codes_non_dict E (List.length codes) codes 0 0 st1 Hn)
    as [Hres [entries [Hlog Hconf]]].
  pose proof (no_found_not_confirmed pre Hsf) as Hpre.
  destruct (scan_codes E (List.length codes) 0 codes 0 st1) as [[n|e] st2];
    cbn [fst snd] in *.
  - cbn [write_log save_results set_files results log].
    split; [exact Hres|].
    exists (pre ++ [LogSearching (List.length codes)] ++ entries
              ++ [LogSaved; LogComplete n])%list.
    split.
    { rewrite Hlog. unfold st1. cbn [write_log log].
      rewrite <- !app_assoc. reflexivity. }
    intros c [cn [s Hin]]. exfalso.
    apply in_app_or in Hin.
    destruct Hin as [Hin|Hin]; [apply (Hpre c); exists cn, s; exact Hin|].
    destruct Hin as [Hin|Hin]; [discriminate|]. cbn [app] in Hin.
    apply in_app_or in Hin. destruct Hin as [Hin|Hin].
    + assert (H : @Ok nat n = Raise TypeError)
        by (apply (Hconf c); exists cn, s; exact Hin).
      discriminate.
    + destruct Hin as [Hin|Hin]; [discriminate|].
      destruct Hin as [Hin|Hin]; [discriminate | destruct Hin].
  - split; [exact Hres|].
    exists (pre ++ [LogSearching (List.length codes)] ++ entries)%list.
    split.
    { rewrite Hlog. unfold st1. cbn [write_log log].
      rewrite <- !app_assoc. reflexivity. }
    intros c [cn [s Hin]].
    apply in_app_or in Hin.
    destruct Hin as [Hin|Hin];
      [exfalso; apply (Hpre c); exists cn, s; exact Hin|].
    destruct Hin as [Hin|Hin]; [discriminate|]. cbn [app] in Hin.
    assert (H : @Raise nat e = Raise TypeError)
      by (apply (Hconf c); exists cn, s; exact Hin).
    injection H as ->. reflexivity.
Qed.

Lemma non_dict_store_rejects_discoveries_witness :
  results (snd (search_promos (Fixture.env site_scan) (Some 10%Z)
                  (Some "AS2300")
                  (init (Fixture.env site_scan) "alaska_promos.json"
                        array_file O)))
  = results (init (Fixture.env site_scan) "alaska_promos.json" array_file O)
  /\ exists entries,
       log (snd (search_promos (Fixture.env site_scan) (Some 10%Z)
                   (Some "AS2300")
                   (init (Fixture.env site_scan) "alaska_promos.json"
                         array_file O)))
       = (log (init (Fixture.env site_scan) "alaska_promos.json"
                    array_file O) ++ entries)%list
       /\ forall c, confirmed entries c ->
            fst (search_promos (Fixture.env site_scan) (Some 10%Z)
                   (Some "AS2300")
                   (init (Fixture.env site_scan) "alaska_promos.json"
                         array_file O))
            = Raise TypeError.
Proof.
  apply (non_dict_store_rejects_discoveries (Fixture.env site_scan)
           (Some 10%Z) (Some "AS2300")
           (init (Fixture.env site_scan) "alaska_promos.json" array_file O)).
  vm_compute. reflexivity.
Defined.

(** ** The store after [__init__] *)


(** ** What the matcher finds *)










(** ** The shape of an expiration date *)











(** ** Names taken from the page text *)













(** ** The log and the store *)




